(** * A shallow embedding of [include/cpu6502.h]

    The header declares the constants, the two enumerations, the CPU
    structure, two 256-entry opcode tables and the two operations
    [cpu6502_reset] and [cpu6502_step].  Everything below follows the
    header line by line:

    - C integers are [Z] with their wrap-around written out
      ([uint8_t], [uint16_t], and [size_t] taken as 64 bits wide, LP64);
    - a C [enum] constant is the integer it denotes, so two enumerators
      given the same value are the same value here too;
    - the status register is one byte; the bit-fields of [flags] share it
      through the union, allocated from the least significant bit in
      declaration order (the layout of GCC and Clang on little-endian
      targets, which is also the 6502's own layout NV-BDIZC);
    - [ram] is a map from array index to byte; every read of it is logged,
      so that statements about which addresses the core touches are about
      the same definition that computes the new state.

    The header stops there: [cpu6502_step] has an empty body, and there is
    no address resolver, no executor and no cycle table.  Where the
    specification speaks of those, its words are modelled in a section of
    their own, each definition marked as such, and kept apart from what
    is translated from the header. *)

From Stdlib Require Import ZArith List Lia Bool.
Import ListNotations.
Open Scope Z_scope.

(** ** Constants *)

Definition RAM_SIZE : Z := 2 * 1024 * 1024.
Definition PAGE_SIZE : Z := 256.
Definition NMI_VECTOR : Z := 0xfffa.
Definition IRQ_VECTOR : Z := 0xfffe.
Definition RESET_VECTOR : Z := 0xfffc.

(** ** Integer types *)

Definition to_uint8 (z : Z) : Z := z mod 2 ^ 8.
Definition to_uint16 (z : Z) : Z := z mod 2 ^ 16.
Definition SIZE_MAX : Z := 2 ^ 64 - 1.
Definition to_size_t (z : Z) : Z := z mod 2 ^ 64.

(** ** [enum addressing_modes_6502] *)

Definition ADDR_MODE_ACCUMULATOR : Z := 0.
Definition ADDR_MODE_ABSOLUTE : Z := 1.
Definition ADDR_MODE_ABSOLUTE_X : Z := 3.
Definition ADDR_MODE_ABSOLUTE_Y : Z := 4.
Definition ADDR_MODE_IMMEDIATE : Z := 5.
Definition ADDR_MODE_IMPLIED : Z := 6.
Definition ADDR_MODE_INDIRECT : Z := 7.
Definition ADDR_MODE_INDIRECT_X : Z := 8.
Definition ADDR_MODE_INDIRECT_Y : Z := 9.
Definition ADDR_MODE_RELATIVE : Z := 10.
Definition ADDR_MODE_ZERO_PAGE : Z := 11.
Definition ADDR_MODE_ZERO_PAGE_X : Z := 12.
Definition ADDR_MODE_ZERO_PAGE_Y : Z := 13.
Definition ADDR_MODE_NONE : Z := 14.

(** The thirteen enumerators that name an addressing mode. *)
Definition addressing_modes : list Z :=
  [ ADDR_MODE_ACCUMULATOR; ADDR_MODE_ABSOLUTE; ADDR_MODE_ABSOLUTE_X;
    ADDR_MODE_ABSOLUTE_Y; ADDR_MODE_IMMEDIATE; ADDR_MODE_IMPLIED;
    ADDR_MODE_INDIRECT; ADDR_MODE_INDIRECT_X; ADDR_MODE_INDIRECT_Y;
    ADDR_MODE_RELATIVE; ADDR_MODE_ZERO_PAGE; ADDR_MODE_ZERO_PAGE_X;
    ADDR_MODE_ZERO_PAGE_Y ].

(** ** [enum instr_types_6502] *)

Definition INSTR_TYPE_LDA : Z := 0.
Definition INSTR_TYPE_LDX : Z := 1.
Definition INSTR_TYPE_LDY : Z := 2.
Definition INSTR_TYPE_STA : Z := 3.
Definition INSTR_TYPE_STX : Z := 4.
Definition INSTR_TYPE_STY : Z := 5.
Definition INSTR_TYPE_TAX : Z := 6.
Definition INSTR_TYPE_TAY : Z := 7.
Definition INSTR_TYPE_TXA : Z := 8.
Definition INSTR_TYPE_TYA : Z := 9.
Definition INSTR_TYPE_TSX : Z := 10.
Definition INSTR_TYPE_TXS : Z := 12.
Definition INSTR_TYPE_PHA : Z := 13.
Definition INSTR_TYPE_PHP : Z := 14.
Definition INSTR_TYPE_PLA : Z := 15.
Definition INSTR_TYPE_PLP : Z := 16.
Definition INSTR_TYPE_AND : Z := 17.
Definition INSTR_TYPE_EOR : Z := 18.
Definition INSTR_TYPE_ORA : Z := 19.
Definition INSTR_TYPE_BIT : Z := 20.
Definition INSTR_TYPE_ADC : Z := 21.
Definition INSTR_TYPE_SBC : Z := 22.
Definition INSTR_TYPE_CMP : Z := 23.
Definition INSTR_TYPE_CPX : Z := 24.
Definition INSTR_TYPE_CPY : Z := 25.
Definition INSTR_TYPE_INC : Z := 26.
Definition INSTR_TYPE_INX : Z := 27.
Definition INSTR_TYPE_INY : Z := 28.
Definition INSTR_TYPE_DEC : Z := 29.
Definition INSTR_TYPE_DEX : Z := 30.
Definition INSTR_TYPE_DEY : Z := 31.
Definition INSTR_TYPE_ASL : Z := 32.
Definition INSTR_TYPE_LSR : Z := 33.
Definition INSTR_TYPE_ROL : Z := 34.
Definition INSTR_TYPE_ROR : Z := 35.
Definition INSTR_TYPE_JMP : Z := 36.
Definition INSTR_TYPE_JSR : Z := 37.
Definition INSTR_TYPE_RTS : Z := 38.
Definition INSTR_TYPE_BCC : Z := 39.
Definition INSTR_TYPE_BCS : Z := 40.
Definition INSTR_TYPE_BEQ : Z := 41.
Definition INSTR_TYPE_BMI : Z := 42.
Definition INSTR_TYPE_BNE : Z := 43.
Definition INSTR_TYPE_BPL : Z := 44.
Definition INSTR_TYPE_BVC : Z := 45.
Definition INSTR_TYPE_BVS : Z := 46.
Definition INSTR_TYPE_CLC : Z := 47.
Definition INSTR_TYPE_CLD : Z := 48.
Definition INSTR_TYPE_CLI : Z := 49.
Definition INSTR_TYPE_CLV : Z := 50.
Definition INSTR_TYPE_SEC : Z := 51.
Definition INSTR_TYPE_SED : Z := 52.
Definition INSTR_TYPE_SEI : Z := 53.
Definition INSTR_TYPE_BRK : Z := 54.
Definition INSTR_TYPE_NOP : Z := 55.
Definition INSTR_TYPE_RTI : Z := 56.
Definition INSTR_TYPE_NONE : Z := 47.

(** The fifty-six enumerators that name an instruction. *)
Definition instr_types : list Z :=
  [ INSTR_TYPE_LDA; INSTR_TYPE_LDX; INSTR_TYPE_LDY; INSTR_TYPE_STA;
    INSTR_TYPE_STX; INSTR_TYPE_STY; INSTR_TYPE_TAX; INSTR_TYPE_TAY;
    INSTR_TYPE_TXA; INSTR_TYPE_TYA; INSTR_TYPE_TSX; INSTR_TYPE_TXS;
    INSTR_TYPE_PHA; INSTR_TYPE_PHP; INSTR_TYPE_PLA; INSTR_TYPE_PLP;
    INSTR_TYPE_AND; INSTR_TYPE_EOR; INSTR_TYPE_ORA; INSTR_TYPE_BIT;
    INSTR_TYPE_ADC; INSTR_TYPE_SBC; INSTR_TYPE_CMP; INSTR_TYPE_CPX;
    INSTR_TYPE_CPY; INSTR_TYPE_INC; INSTR_TYPE_INX; INSTR_TYPE_INY;
    INSTR_TYPE_DEC; INSTR_TYPE_DEX; INSTR_TYPE_DEY; INSTR_TYPE_ASL;
    INSTR_TYPE_LSR; INSTR_TYPE_ROL; INSTR_TYPE_ROR; INSTR_TYPE_JMP;
    INSTR_TYPE_JSR; INSTR_TYPE_RTS; INSTR_TYPE_BCC; INSTR_TYPE_BCS;
    INSTR_TYPE_BEQ; INSTR_TYPE_BMI; INSTR_TYPE_BNE; INSTR_TYPE_BPL;
    INSTR_TYPE_BVC; INSTR_TYPE_BVS; INSTR_TYPE_CLC; INSTR_TYPE_CLD;
    INSTR_TYPE_CLI; INSTR_TYPE_CLV; INSTR_TYPE_SEC; INSTR_TYPE_SED;
    INSTR_TYPE_SEI; INSTR_TYPE_BRK; INSTR_TYPE_NOP; INSTR_TYPE_RTI ].

(** ** The opcode tables

    Both arrays are written with one designated initializer per opcode,
    [0x00] to [0xff]; the comment at the start of a row is the opcode of
    its first entry. *)

Definition instruction_modes_6502 : list Z :=
  [ (* 00 *) ADDR_MODE_IMPLIED; ADDR_MODE_INDIRECT_X; ADDR_MODE_NONE; ADDR_MODE_NONE;
    (* 04 *) ADDR_MODE_NONE; ADDR_MODE_ZERO_PAGE; ADDR_MODE_ZERO_PAGE; ADDR_MODE_NONE;
    (* 08 *) ADDR_MODE_IMPLIED; ADDR_MODE_IMMEDIATE; ADDR_MODE_ACCUMULATOR; ADDR_MODE_NONE;
    (* 0c *) ADDR_MODE_NONE; ADDR_MODE_ABSOLUTE; ADDR_MODE_ABSOLUTE; ADDR_MODE_NONE;
    (* 10 *) ADDR_MODE_RELATIVE; ADDR_MODE_INDIRECT_Y; ADDR_MODE_NONE; ADDR_MODE_NONE;
    (* 14 *) ADDR_MODE_NONE; ADDR_MODE_ZERO_PAGE_X; ADDR_MODE_ZERO_PAGE_X; ADDR_MODE_NONE;
    (* 18 *) ADDR_MODE_IMPLIED; ADDR_MODE_ABSOLUTE_Y; ADDR_MODE_NONE; ADDR_MODE_NONE;
    (* 1c *) ADDR_MODE_NONE; ADDR_MODE_ABSOLUTE_X; ADDR_MODE_ABSOLUTE_X; ADDR_MODE_NONE;
    (* 20 *) ADDR_MODE_ABSOLUTE; ADDR_MODE_INDIRECT_X; ADDR_MODE_NONE; ADDR_MODE_NONE;
    (* 24 *) ADDR_MODE_ZERO_PAGE; ADDR_MODE_ZERO_PAGE; ADDR_MODE_ZERO_PAGE; ADDR_MODE_NONE;
    (* 28 *) ADDR_MODE_IMPLIED; ADDR_MODE_IMMEDIATE; ADDR_MODE_ACCUMULATOR; ADDR_MODE_NONE;
    (* 2c *) ADDR_MODE_ABSOLUTE; ADDR_MODE_ABSOLUTE; ADDR_MODE_ABSOLUTE; ADDR_MODE_NONE;
    (* 30 *) ADDR_MODE_RELATIVE; ADDR_MODE_INDIRECT_Y; ADDR_MODE_NONE; ADDR_MODE_NONE;
    (* 34 *) ADDR_MODE_NONE; ADDR_MODE_ZERO_PAGE_X; ADDR_MODE_ZERO_PAGE_X; ADDR_MODE_NONE;
    (* 38 *) ADDR_MODE_IMPLIED; ADDR_MODE_ABSOLUTE_Y; ADDR_MODE_NONE; ADDR_MODE_NONE;
    (* 3c *) ADDR_MODE_NONE; ADDR_MODE_ABSOLUTE_X; ADDR_MODE_ABSOLUTE_X; ADDR_MODE_NONE;
    (* 40 *) ADDR_MODE_IMPLIED; ADDR_MODE_INDIRECT_X; ADDR_MODE_NONE; ADDR_MODE_NONE;
    (* 44 *) ADDR_MODE_NONE; ADDR_MODE_ZERO_PAGE; ADDR_MODE_ZERO_PAGE; ADDR_MODE_NONE;
    (* 48 *) ADDR_MODE_IMPLIED; ADDR_MODE_IMMEDIATE; ADDR_MODE_ACCUMULATOR; ADDR_MODE_NONE;
    (* 4c *) ADDR_MODE_ABSOLUTE; ADDR_MODE_ABSOLUTE; ADDR_MODE_ABSOLUTE; ADDR_MODE_NONE;
    (* 50 *) ADDR_MODE_RELATIVE; ADDR_MODE_INDIRECT_Y; ADDR_MODE_NONE; ADDR_MODE_NONE;
    (* 54 *) ADDR_MODE_NONE; ADDR_MODE_ZERO_PAGE_X; ADDR_MODE_ZERO_PAGE_X; ADDR_MODE_NONE;
    (* 58 *) ADDR_MODE_IMPLIED; ADDR_MODE_ABSOLUTE_Y; ADDR_MODE_NONE; ADDR_MODE_NONE;
    (* 5c *) ADDR_MODE_NONE; ADDR_MODE_ABSOLUTE_X; ADDR_MODE_ABSOLUTE_X; ADDR_MODE_NONE;
    (* 60 *) ADDR_MODE_IMPLIED; ADDR_MODE_INDIRECT_X; ADDR_MODE_NONE; ADDR_MODE_NONE;
    (* 64 *) ADDR_MODE_NONE; ADDR_MODE_ZERO_PAGE; ADDR_MODE_ZERO_PAGE; ADDR_MODE_NONE;
    (* 68 *) ADDR_MODE_IMPLIED; ADDR_MODE_IMMEDIATE; ADDR_MODE_ACCUMULATOR; ADDR_MODE_NONE;
    (* 6c *) ADDR_MODE_INDIRECT; ADDR_MODE_ABSOLUTE; ADDR_MODE_ABSOLUTE; ADDR_MODE_NONE;
    (* 70 *) ADDR_MODE_RELATIVE; ADDR_MODE_INDIRECT_Y; ADDR_MODE_NONE; ADDR_MODE_NONE;
    (* 74 *) ADDR_MODE_NONE; ADDR_MODE_ZERO_PAGE_X; ADDR_MODE_ZERO_PAGE_X; ADDR_MODE_NONE;
    (* 78 *) ADDR_MODE_IMPLIED; ADDR_MODE_ABSOLUTE_Y; ADDR_MODE_NONE; ADDR_MODE_NONE;
    (* 7c *) ADDR_MODE_NONE; ADDR_MODE_ABSOLUTE_X; ADDR_MODE_ABSOLUTE_X; ADDR_MODE_NONE;
    (* 80 *) ADDR_MODE_NONE; ADDR_MODE_INDIRECT_X; ADDR_MODE_NONE; ADDR_MODE_NONE;
    (* 84 *) ADDR_MODE_ZERO_PAGE; ADDR_MODE_ZERO_PAGE; ADDR_MODE_ZERO_PAGE; ADDR_MODE_NONE;
    (* 88 *) ADDR_MODE_IMPLIED; ADDR_MODE_NONE; ADDR_MODE_IMPLIED; ADDR_MODE_NONE;
    (* 8c *) ADDR_MODE_ABSOLUTE; ADDR_MODE_ABSOLUTE; ADDR_MODE_ABSOLUTE; ADDR_MODE_NONE;
    (* 90 *) ADDR_MODE_RELATIVE; ADDR_MODE_INDIRECT_Y; ADDR_MODE_NONE; ADDR_MODE_NONE;
    (* 94 *) ADDR_MODE_ZERO_PAGE_X; ADDR_MODE_ZERO_PAGE_X; ADDR_MODE_ZERO_PAGE_Y; ADDR_MODE_NONE;
    (* 98 *) ADDR_MODE_IMPLIED; ADDR_MODE_ABSOLUTE_Y; ADDR_MODE_IMPLIED; ADDR_MODE_NONE;
    (* 9c *) ADDR_MODE_NONE; ADDR_MODE_ABSOLUTE_X; ADDR_MODE_NONE; ADDR_MODE_NONE;
    (* a0 *) ADDR_MODE_IMMEDIATE; ADDR_MODE_INDIRECT_X; ADDR_MODE_IMMEDIATE; ADDR_MODE_NONE;
    (* a4 *) ADDR_MODE_ZERO_PAGE; ADDR_MODE_ZERO_PAGE; ADDR_MODE_ZERO_PAGE; ADDR_MODE_NONE;
    (* a8 *) ADDR_MODE_IMPLIED; ADDR_MODE_IMMEDIATE; ADDR_MODE_IMPLIED; ADDR_MODE_NONE;
    (* ac *) ADDR_MODE_ABSOLUTE; ADDR_MODE_ABSOLUTE; ADDR_MODE_ABSOLUTE; ADDR_MODE_NONE;
    (* b0 *) ADDR_MODE_RELATIVE; ADDR_MODE_INDIRECT_Y; ADDR_MODE_NONE; ADDR_MODE_NONE;
    (* b4 *) ADDR_MODE_ZERO_PAGE_X; ADDR_MODE_ZERO_PAGE_X; ADDR_MODE_ZERO_PAGE_Y; ADDR_MODE_NONE;
    (* b8 *) ADDR_MODE_IMPLIED; ADDR_MODE_ABSOLUTE_Y; ADDR_MODE_IMPLIED; ADDR_MODE_NONE;
    (* bc *) ADDR_MODE_ABSOLUTE_X; ADDR_MODE_ABSOLUTE_X; ADDR_MODE_ABSOLUTE_Y; ADDR_MODE_NONE;
    (* c0 *) ADDR_MODE_IMMEDIATE; ADDR_MODE_INDIRECT_X; ADDR_MODE_NONE; ADDR_MODE_NONE;
    (* c4 *) ADDR_MODE_ZERO_PAGE; ADDR_MODE_ZERO_PAGE; ADDR_MODE_ZERO_PAGE; ADDR_MODE_NONE;
    (* c8 *) ADDR_MODE_IMPLIED; ADDR_MODE_IMMEDIATE; ADDR_MODE_IMPLIED; ADDR_MODE_NONE;
    (* cc *) ADDR_MODE_ABSOLUTE; ADDR_MODE_ABSOLUTE; ADDR_MODE_ABSOLUTE; ADDR_MODE_NONE;
    (* d0 *) ADDR_MODE_RELATIVE; ADDR_MODE_INDIRECT_Y; ADDR_MODE_NONE; ADDR_MODE_NONE;
    (* d4 *) ADDR_MODE_NONE; ADDR_MODE_ZERO_PAGE_X; ADDR_MODE_ZERO_PAGE_Y; ADDR_MODE_NONE;
    (* d8 *) ADDR_MODE_IMPLIED; ADDR_MODE_ABSOLUTE_Y; ADDR_MODE_NONE; ADDR_MODE_NONE;
    (* dc *) ADDR_MODE_NONE; ADDR_MODE_ABSOLUTE_X; ADDR_MODE_ABSOLUTE_X; ADDR_MODE_NONE;
    (* e0 *) ADDR_MODE_IMMEDIATE; ADDR_MODE_INDIRECT_X; ADDR_MODE_NONE; ADDR_MODE_NONE;
    (* e4 *) ADDR_MODE_ZERO_PAGE; ADDR_MODE_ZERO_PAGE; ADDR_MODE_ZERO_PAGE; ADDR_MODE_NONE;
    (* e8 *) ADDR_MODE_IMPLIED; ADDR_MODE_IMMEDIATE; ADDR_MODE_IMPLIED; ADDR_MODE_NONE;
    (* ec *) ADDR_MODE_ABSOLUTE; ADDR_MODE_ABSOLUTE; ADDR_MODE_ABSOLUTE; ADDR_MODE_NONE;
    (* f0 *) ADDR_MODE_RELATIVE; ADDR_MODE_INDIRECT_Y; ADDR_MODE_NONE; ADDR_MODE_NONE;
    (* f4 *) ADDR_MODE_NONE; ADDR_MODE_ZERO_PAGE_X; ADDR_MODE_ZERO_PAGE_X; ADDR_MODE_NONE;
    (* f8 *) ADDR_MODE_IMPLIED; ADDR_MODE_ABSOLUTE_Y; ADDR_MODE_NONE; ADDR_MODE_NONE;
    (* fc *) ADDR_MODE_NONE; ADDR_MODE_ABSOLUTE_X; ADDR_MODE_ABSOLUTE_X; ADDR_MODE_NONE ].

Definition instruction_types_6502 : list Z :=
  [ (* 00 *) INSTR_TYPE_BRK; INSTR_TYPE_ORA; INSTR_TYPE_NONE; INSTR_TYPE_NONE;
    (* 04 *) INSTR_TYPE_NONE; INSTR_TYPE_ORA; INSTR_TYPE_ASL; INSTR_TYPE_NONE;
    (* 08 *) INSTR_TYPE_PHP; INSTR_TYPE_ORA; INSTR_TYPE_ASL; INSTR_TYPE_NONE;
    (* 0c *) INSTR_TYPE_NONE; INSTR_TYPE_ORA; INSTR_TYPE_ASL; INSTR_TYPE_NONE;
    (* 10 *) INSTR_TYPE_BPL; INSTR_TYPE_ORA; INSTR_TYPE_NONE; INSTR_TYPE_NONE;
    (* 14 *) INSTR_TYPE_NONE; INSTR_TYPE_ORA; INSTR_TYPE_ASL; INSTR_TYPE_NONE;
    (* 18 *) INSTR_TYPE_CLC; INSTR_TYPE_ORA; INSTR_TYPE_NONE; INSTR_TYPE_NONE;
    (* 1c *) INSTR_TYPE_NONE; INSTR_TYPE_ORA; INSTR_TYPE_ASL; INSTR_TYPE_NONE;
    (* 20 *) INSTR_TYPE_JSR; INSTR_TYPE_AND; INSTR_TYPE_NONE; INSTR_TYPE_NONE;
    (* 24 *) INSTR_TYPE_BIT; INSTR_TYPE_AND; INSTR_TYPE_ROL; INSTR_TYPE_NONE;
    (* 28 *) INSTR_TYPE_PLP; INSTR_TYPE_AND; INSTR_TYPE_ROL; INSTR_TYPE_NONE;
    (* 2c *) INSTR_TYPE_BIT; INSTR_TYPE_AND; INSTR_TYPE_ROL; INSTR_TYPE_NONE;
    (* 30 *) INSTR_TYPE_BMI; INSTR_TYPE_AND; INSTR_TYPE_NONE; INSTR_TYPE_NONE;
    (* 34 *) INSTR_TYPE_NONE; INSTR_TYPE_AND; INSTR_TYPE_ROL; INSTR_TYPE_NONE;
    (* 38 *) INSTR_TYPE_SEC; INSTR_TYPE_AND; INSTR_TYPE_NONE; INSTR_TYPE_NONE;
    (* 3c *) INSTR_TYPE_NONE; INSTR_TYPE_AND; INSTR_TYPE_ROL; INSTR_TYPE_NONE;
    (* 40 *) INSTR_TYPE_RTI; INSTR_TYPE_EOR; INSTR_TYPE_NONE; INSTR_TYPE_NONE;
    (* 44 *) INSTR_TYPE_NONE; INSTR_TYPE_EOR; INSTR_TYPE_LSR; INSTR_TYPE_NONE;
    (* 48 *) INSTR_TYPE_PHA; INSTR_TYPE_EOR; INSTR_TYPE_LSR; INSTR_TYPE_NONE;
    (* 4c *) INSTR_TYPE_JMP; INSTR_TYPE_EOR; INSTR_TYPE_LSR; INSTR_TYPE_NONE;
    (* 50 *) INSTR_TYPE_BVC; INSTR_TYPE_EOR; INSTR_TYPE_NONE; INSTR_TYPE_NONE;
    (* 54 *) INSTR_TYPE_NONE; INSTR_TYPE_EOR; INSTR_TYPE_LSR; INSTR_TYPE_NONE;
    (* 58 *) INSTR_TYPE_CLI; INSTR_TYPE_EOR; INSTR_TYPE_NONE; INSTR_TYPE_NONE;
    (* 5c *) INSTR_TYPE_NONE; INSTR_TYPE_EOR; INSTR_TYPE_LSR; INSTR_TYPE_NONE;
    (* 60 *) INSTR_TYPE_RTS; INSTR_TYPE_ADC; INSTR_TYPE_NONE; INSTR_TYPE_NONE;
    (* 64 *) INSTR_TYPE_NONE; INSTR_TYPE_ADC; INSTR_TYPE_ROR; INSTR_TYPE_NONE;
    (* 68 *) INSTR_TYPE_PLA; INSTR_TYPE_ADC; INSTR_TYPE_ROR; INSTR_TYPE_NONE;
    (* 6c *) INSTR_TYPE_JMP; INSTR_TYPE_ADC; INSTR_TYPE_ROR; INSTR_TYPE_NONE;
    (* 70 *) INSTR_TYPE_BVS; INSTR_TYPE_ADC; INSTR_TYPE_NONE; INSTR_TYPE_NONE;
    (* 74 *) INSTR_TYPE_NONE; INSTR_TYPE_ADC; INSTR_TYPE_ROR; INSTR_TYPE_NONE;
    (* 78 *) INSTR_TYPE_SEI; INSTR_TYPE_ADC; INSTR_TYPE_NONE; INSTR_TYPE_NONE;
    (* 7c *) INSTR_TYPE_NONE; INSTR_TYPE_ADC; INSTR_TYPE_ROR; INSTR_TYPE_NONE;
    (* 80 *) INSTR_TYPE_NONE; INSTR_TYPE_STA; INSTR_TYPE_NONE; INSTR_TYPE_NONE;
    (* 84 *) INSTR_TYPE_STY; INSTR_TYPE_STA; INSTR_TYPE_STX; INSTR_TYPE_NONE;
    (* 88 *) INSTR_TYPE_DEY; INSTR_TYPE_NONE; INSTR_TYPE_TXA; INSTR_TYPE_NONE;
    (* 8c *) INSTR_TYPE_STY; INSTR_TYPE_STA; INSTR_TYPE_STX; INSTR_TYPE_NONE;
    (* 90 *) INSTR_TYPE_BCC; INSTR_TYPE_STA; INSTR_TYPE_NONE; INSTR_TYPE_NONE;
    (* 94 *) INSTR_TYPE_STY; INSTR_TYPE_STA; INSTR_TYPE_STX; INSTR_TYPE_NONE;
    (* 98 *) INSTR_TYPE_TYA; INSTR_TYPE_STA; INSTR_TYPE_TXS; INSTR_TYPE_NONE;
    (* 9c *) INSTR_TYPE_NONE; INSTR_TYPE_STA; INSTR_TYPE_NONE; INSTR_TYPE_NONE;
    (* a0 *) INSTR_TYPE_LDY; INSTR_TYPE_LDA; INSTR_TYPE_LDX; INSTR_TYPE_NONE;
    (* a4 *) INSTR_TYPE_LDY; INSTR_TYPE_LDA; INSTR_TYPE_LDX; INSTR_TYPE_NONE;
    (* a8 *) INSTR_TYPE_TAY; INSTR_TYPE_LDA; INSTR_TYPE_TAX; INSTR_TYPE_NONE;
    (* ac *) INSTR_TYPE_LDY; INSTR_TYPE_LDA; INSTR_TYPE_LDX; INSTR_TYPE_NONE;
    (* b0 *) INSTR_TYPE_BCS; INSTR_TYPE_LDA; INSTR_TYPE_NONE; INSTR_TYPE_NONE;
    (* b4 *) INSTR_TYPE_LDY; INSTR_TYPE_LDA; INSTR_TYPE_LDX; INSTR_TYPE_NONE;
    (* b8 *) INSTR_TYPE_CLV; INSTR_TYPE_LDA; INSTR_TYPE_TSX; INSTR_TYPE_NONE;
    (* bc *) INSTR_TYPE_LDY; INSTR_TYPE_LDA; INSTR_TYPE_LDX; INSTR_TYPE_NONE;
    (* c0 *) INSTR_TYPE_CPY; INSTR_TYPE_CMP; INSTR_TYPE_NONE; INSTR_TYPE_NONE;
    (* c4 *) INSTR_TYPE_CPY; INSTR_TYPE_CMP; INSTR_TYPE_DEC; INSTR_TYPE_NONE;
    (* c8 *) INSTR_TYPE_INY; INSTR_TYPE_CMP; INSTR_TYPE_DEX; INSTR_TYPE_NONE;
    (* cc *) INSTR_TYPE_CPY; INSTR_TYPE_CMP; INSTR_TYPE_DEC; INSTR_TYPE_NONE;
    (* d0 *) INSTR_TYPE_BNE; INSTR_TYPE_CMP; INSTR_TYPE_NONE; INSTR_TYPE_NONE;
    (* d4 *) INSTR_TYPE_NONE; INSTR_TYPE_CMP; INSTR_TYPE_DEC; INSTR_TYPE_NONE;
    (* d8 *) INSTR_TYPE_CLD; INSTR_TYPE_CMP; INSTR_TYPE_NONE; INSTR_TYPE_NONE;
    (* dc *) INSTR_TYPE_NONE; INSTR_TYPE_CMP; INSTR_TYPE_DEC; INSTR_TYPE_NONE;
    (* e0 *) INSTR_TYPE_CPX; INSTR_TYPE_SBC; INSTR_TYPE_NONE; INSTR_TYPE_NONE;
    (* e4 *) INSTR_TYPE_CPX; INSTR_TYPE_SBC; INSTR_TYPE_INC; INSTR_TYPE_NONE;
    (* e8 *) INSTR_TYPE_INX; INSTR_TYPE_SBC; INSTR_TYPE_NOP; INSTR_TYPE_NONE;
    (* ec *) INSTR_TYPE_CPX; INSTR_TYPE_SBC; INSTR_TYPE_INC; INSTR_TYPE_NONE;
    (* f0 *) INSTR_TYPE_BEQ; INSTR_TYPE_SBC; INSTR_TYPE_NONE; INSTR_TYPE_NONE;
    (* f4 *) INSTR_TYPE_NONE; INSTR_TYPE_SBC; INSTR_TYPE_INC; INSTR_TYPE_NONE;
    (* f8 *) INSTR_TYPE_SED; INSTR_TYPE_SBC; INSTR_TYPE_NONE; INSTR_TYPE_NONE;
    (* fc *) INSTR_TYPE_NONE; INSTR_TYPE_SBC; INSTR_TYPE_INC; INSTR_TYPE_NONE ].

(** [t[i]]: an index outside the array has no value. *)
Definition index (t : list Z) (i : Z) : option Z :=
  if i <? 0 then None else nth_error t (Z.to_nat i).

(** The opcode bytes, [0x00] to [0xff]. *)
Definition opcodes : list Z := map Z.of_nat (seq 0 256).

(** ** [struct cpu6502] *)

Record cpu6502 : Type := mk_cpu6502 {
  pc : Z;                (* uint16_t: program counter *)
  sp : Z;                (* uint8_t: stack pointer = 0x0100 | sp *)
  a : Z;                 (* uint8_t: accumulator *)
  x : Z;                 (* uint8_t: index register X *)
  y : Z;                 (* uint8_t: index register Y *)
  status : Z;            (* uint8_t: status register, shared with [flags] *)
  ram : Z -> Z;          (* uint8_t ram[RAM_SIZE] *)
  ram_size : Z;          (* size_t: size of RAM, in bytes *)
  cycles_behind : Z;     (* size_t: number of cycles the CPU is behind *)
  instruction_mode : Z;  (* enum addressing_modes_6502 *)
  data : Z               (* uint8_t: the current data *)
}.

(** Bit positions of the members of [flags] inside [status]. *)
Definition FLAG_C : Z := 0.
Definition FLAG_Z : Z := 1.
Definition FLAG_I : Z := 2.
Definition FLAG_D : Z := 3.
Definition FLAG_B : Z := 4.
Definition FLAG_U : Z := 5.
Definition FLAG_V : Z := 6.
Definition FLAG_N : Z := 7.

(** Reading the one-bit member at position [k]. *)
Definition flag (k : Z) (s : cpu6502) : Z := Z.b2z (Z.testbit (status s) k).

(** Storing [v] into the one-bit member at position [k]: the member keeps
    the low bit of [v], the other bits of the byte stay. *)
Definition bitfield_store (st k v : Z) : Z :=
  if Z.odd v then Z.setbit st k else Z.clearbit st k.

(** The values a [struct cpu6502] can hold. *)
Record cpu6502_wf (s : cpu6502) : Prop := {
  wf_pc : 0 <= pc s < 2 ^ 16;
  wf_sp : 0 <= sp s < 2 ^ 8;
  wf_a : 0 <= a s < 2 ^ 8;
  wf_x : 0 <= x s < 2 ^ 8;
  wf_y : 0 <= y s < 2 ^ 8;
  wf_status : 0 <= status s < 2 ^ 8;
  wf_ram : forall i, 0 <= i < RAM_SIZE -> 0 <= ram s i < 2 ^ 8;
  wf_ram_size : 0 <= ram_size s < 2 ^ 64;
  wf_cycles_behind : 0 <= cycles_behind s < 2 ^ 64;
  wf_data : 0 <= data s < 2 ^ 8
}.

(** ** Statements over a [struct cpu6502 *]

    A statement takes the structure, gives a value and the structure as
    it leaves it, and the indices of [ram] it read, in order. *)

Definition M (A : Type) : Type := cpu6502 -> A * cpu6502 * list Z.

Definition ret {A : Type} (v : A) : M A := fun s => (v, s, []).

Definition bind {A B : Type} (m : M A) (f : A -> M B) : M B :=
  fun s =>
    let '(v, s1, l1) := m s in
    let '(w, s2, l2) := f v s1 in
    (w, s2, l1 ++ l2).

Notation "v <- m ;; k" := (bind m (fun v => k))
  (at level 61, m at next level, right associativity).
Notation "m ;; k" := (bind m (fun _ => k))
  (at level 61, right associativity).

Definition get {A : Type} (field : cpu6502 -> A) : M A :=
  fun s => (field s, s, []).

(** [cpu->ram[i]] as an rvalue. *)
Definition load (i : Z) : M Z := fun s => (ram s i, s, [i]).

Definition put_pc (v : Z) : M unit := fun s =>
  (tt, mk_cpu6502 v (sp s) (a s) (x s) (y s) (status s) (ram s) (ram_size s)
         (cycles_behind s) (instruction_mode s) (data s), []).
Definition put_sp (v : Z) : M unit := fun s =>
  (tt, mk_cpu6502 (pc s) v (a s) (x s) (y s) (status s) (ram s) (ram_size s)
         (cycles_behind s) (instruction_mode s) (data s), []).
Definition put_a (v : Z) : M unit := fun s =>
  (tt, mk_cpu6502 (pc s) (sp s) v (x s) (y s) (status s) (ram s) (ram_size s)
         (cycles_behind s) (instruction_mode s) (data s), []).
Definition put_x (v : Z) : M unit := fun s =>
  (tt, mk_cpu6502 (pc s) (sp s) (a s) v (y s) (status s) (ram s) (ram_size s)
         (cycles_behind s) (instruction_mode s) (data s), []).
Definition put_y (v : Z) : M unit := fun s =>
  (tt, mk_cpu6502 (pc s) (sp s) (a s) (x s) v (status s) (ram s) (ram_size s)
         (cycles_behind s) (instruction_mode s) (data s), []).
Definition put_status (v : Z) : M unit := fun s =>
  (tt, mk_cpu6502 (pc s) (sp s) (a s) (x s) (y s) v (ram s) (ram_size s)
         (cycles_behind s) (instruction_mode s) (data s), []).
Definition put_ram_size (v : Z) : M unit := fun s =>
  (tt, mk_cpu6502 (pc s) (sp s) (a s) (x s) (y s) (status s) (ram s) v
         (cycles_behind s) (instruction_mode s) (data s), []).
Definition put_cycles_behind (v : Z) : M unit := fun s =>
  (tt, mk_cpu6502 (pc s) (sp s) (a s) (x s) (y s) (status s) (ram s)
         (ram_size s) v (instruction_mode s) (data s), []).

(** [cpu->flags.<member> = v]. *)
Definition put_flag (k v : Z) : M unit :=
  st <- get status ;; put_status (bitfield_store st k v).

(** ** [cpu6502_reset] *)

Definition cpu6502_reset_stmt : M unit :=
  put_cycles_behind 6 ;;
  put_ram_size RAM_SIZE ;;
  put_flag FLAG_I 1 ;;
  put_flag FLAG_D 0 ;;
  lo <- load RESET_VECTOR ;;
  hi <- load (RESET_VECTOR + 1) ;;
  put_pc (to_uint16 (Z.lor lo (Z.shiftl hi 8))) ;;
  put_flag FLAG_Z 1 ;;
  put_flag FLAG_N 0 ;;
  put_flag FLAG_V 0 ;;
  put_flag FLAG_C 0 ;;
  put_sp 0xff ;;
  put_a 0 ;;
  put_x 0 ;;
  put_y 0.

(** ** [cpu6502_step]

    The body of the [if] is empty in the header. *)

Definition cpu6502_step_stmt : M unit :=
  cb <- get cycles_behind ;;
  (if 0 <? cb then ret tt else ret tt) ;;
  cb <- get cycles_behind ;;
  put_cycles_behind (to_size_t (cb - 1)).

(** The structure after a call, and the indices of [ram] the call read. *)
Definition state_after {A : Type} (m : M A) (s : cpu6502) : cpu6502 :=
  snd (fst (m s)).
Definition loads_of {A : Type} (m : M A) (s : cpu6502) : list Z :=
  snd (m s).

Definition cpu6502_reset (s : cpu6502) : cpu6502 :=
  state_after cpu6502_reset_stmt s.
Definition cpu6502_step (s : cpu6502) : cpu6502 :=
  state_after cpu6502_step_stmt s.

(** [n] calls of [cpu6502_step] in a row. *)
Fixpoint steps (n : nat) (s : cpu6502) : cpu6502 :=
  match n with
  | O => s
  | S n' => steps n' (cpu6502_step s)
  end.

(** A structure whose every byte is zero, as static storage starts out. *)
Definition cpu6502_zero : cpu6502 :=
  mk_cpu6502 0 0 0 0 0 0 (fun _ => 0) 0 0 0 0.


(** ** Derived forms *)

(** The structure with its cycle counter replaced. *)
Definition with_cycles_behind (v : Z) (s : cpu6502) : cpu6502 :=
  state_after (put_cycles_behind v) s.

(** The status byte [cpu6502_reset] leaves, from the one it found. *)
Definition reset_status (st : Z) : Z :=
  bitfield_store
    (bitfield_store
       (bitfield_store
          (bitfield_store
             (bitfield_store (bitfield_store st FLAG_I 1) FLAG_D 0)
             FLAG_Z 1)
          FLAG_N 0)
       FLAG_V 0)
    FLAG_C 0.

(** ** Structures used as examples *)

(** Zeroed memory whose reset vector holds [0x8000], low byte first. *)
Definition cpu6502_vector_8000 : cpu6502 :=
  mk_cpu6502 0 0 0 0 0 0 (fun i => if i =? 0xfffd then 0x80 else 0)
    RAM_SIZE 0 0 0.

(** No cycle owed, the program counter at [0x8000] where the byte [0x38]
    (SEC, set carry flag) lies, carry clear (status [0x24]: only the
    interrupt-disable and the unused bit set). *)
Definition cpu6502_idle_at_sec : cpu6502 :=
  mk_cpu6502 0x8000 0xff 0 0 0 0x24 (fun i => if i =? 0x8000 then 0x38 else 0)
    RAM_SIZE 0 0 0.

(** Three cycles owed, otherwise as above. *)
Definition cpu6502_busy : cpu6502 := with_cycles_behind 3 cpu6502_idle_at_sec.

(** ** The statements of the specification that the header is compared with *)

(** *** The step operation

    The specification lets a call either consume buffered cycle debt or,
    with none left, execute the instruction at the program counter.  The
    header has no executor, so of an instruction's effects only one that
    the enumeration itself documents is stated, as a consequence any
    executor has to meet: SEC, SED and SEI set the carry, the decimal and
    the interrupt-disable flag. *)

(** The flag an instruction type sets, for the three whose comment in the
    enumeration says so. *)
Definition flag_set_by (ty : Z) : option Z :=
  if ty =? INSTR_TYPE_SEC then Some FLAG_C
  else if ty =? INSTR_TYPE_SED then Some FLAG_D
  else if ty =? INSTR_TYPE_SEI then Some FLAG_I
  else None.

(** [s'] shows the effect of the instruction under the program counter
    of [s]. *)
Definition instruction_effect (s s' : cpu6502) : Prop :=
  match index instruction_types_6502 (ram s (pc s)) with
  | Some ty =>
      match flag_set_by ty with
      | Some k => flag k s' = 1
      | None => True
      end
  | None => True
  end.

(** The step operation as the specification words it, between the state
    before a call and the state after: debt is consumed and nothing else
    happens, or no debt is left and an instruction is executed. *)
Definition step_contract (s s' : cpu6502) : Prop :=
  (0 < cycles_behind s /\ s' = with_cycles_behind (cycles_behind s - 1) s)
  \/ (cycles_behind s = 0 /\ instruction_effect s s').

(** *** The unused flag

    The invariant as the specification words it, over the states reached
    from a reset by any number of steps. *)

Definition unused_flag_always_set : Prop :=
  forall (s : cpu6502) (n : nat), flag FLAG_U (steps n (cpu6502_reset s)) = 1.

(** *** Instruction descriptors

    The three fields the specification gives an instruction descriptor,
    and the array of the header that holds each.  The header declares the
    two arrays above and no other: nothing in it holds cycle counts. *)

Inductive descriptor_field : Type :=
  | AddressingMode
  | InstructionType
  | BaseCycles.

Definition table_of (f : descriptor_field) : option (list Z) :=
  match f with
  | AddressingMode => Some instruction_modes_6502
  | InstructionType => Some instruction_types_6502
  | BaseCycles => None
  end.

Definition descriptor (f : descriptor_field) (opcode : Z) : option Z :=
  match table_of f with
  | Some t => index t opcode
  | None => None
  end.

Definition descriptor_determined (opcode : Z) : Prop :=
  forall f, exists v, descriptor f opcode = Some v.

(** *** The unassigned sentinel

    The addressing-mode table marks an opcode without an instruction by
    [ADDR_MODE_NONE], which no addressing mode shares; this is what
    "assigned" means below. *)

Definition assigned (opcode : Z) : bool :=
  match index instruction_modes_6502 opcode with
  | Some m => negb (m =? ADDR_MODE_NONE)
  | None => false
  end.

(** The test for an invalid opcode: the instruction-type table yields the
    sentinel. *)
Definition invalid_opcode (opcode : Z) : bool :=
  match index instruction_types_6502 opcode with
  | Some t => t =? INSTR_TYPE_NONE
  | None => true
  end.

(** ** The address resolver and the cycle count of the executor

    The header stops at the tables: it has no address resolver and no
    executor, and [cpu6502_step] calls none.  The definitions of this
    section follow the specification instead (its sections 4.2, 4.4 and
    6 and its glossary). *)

(** Modelled from the spec: the memory interface, missing from the header
    ("the core reads/writes by 16-bit address with wraparound at the top
    of that space"). *)
Definition read (s : cpu6502) (addr : Z) : Z := ram s (to_uint16 addr).

(** Modelled from the spec: a 16-bit little-endian value in memory, as
    the missing resolver reads pointers and absolute operands. *)
Definition read16 (s : cpu6502) (addr : Z) : Z :=
  Z.lor (read s addr) (Z.shiftl (read s (addr + 1)) 8).

(** Modelled from the spec: the page of an address ("a 256-byte aligned
    region of the address space"), with the header's [PAGE_SIZE]; the
    header has no page arithmetic. *)
Definition page_of (addr : Z) : Z := addr / PAGE_SIZE.

(** Modelled from the spec: the first address of the page of [addr]. *)
Definition page_start (addr : Z) : Z := PAGE_SIZE * (addr / PAGE_SIZE).

(** Modelled from the spec: the low byte of an address, its offset in
    its page. *)
Definition low_byte (addr : Z) : Z := addr mod PAGE_SIZE.

(** Modelled from the spec: a page-boundary crossing ("high byte
    changes"). *)
Definition page_crossed (from to : Z) : bool := negb (page_of from =? page_of to).

(** Modelled from the spec: the Indirect mode of the missing address
    resolver ("the pointer is read as little-endian from the given 16-bit
    address, but page-wrap is defective: if the low byte of the pointer
    address is 0xFF, the high byte of the target is fetched from the start
    of the same page, not the next page"). *)
Definition resolve_indirect (s : cpu6502) (ptr : Z) : Z :=
  let hi_addr := if low_byte ptr =? 0xff then page_start ptr else ptr + 1 in
  Z.lor (read s ptr) (Z.shiftl (read s hi_addr) 8).

(** Modelled from the spec: what the missing resolver returns, "the
    effective 16-bit address (or, for accumulator/immediate modes, the
    operand value directly) and a boolean indicating a page-boundary
    crossing". *)
Record operand : Type := mk_operand { effective : Z; crossed : bool }.

(** Modelled from the spec: a byte read as the "signed 8-bit
    displacement" of the Relative mode. *)
Definition signed8 (b : Z) : Z := if b <? 0x80 then b else b - 0x100.

(** Modelled from the spec: the missing address resolver, mode by mode;
    the operand bytes are the one or two bytes that follow the opcode at
    the program counter. *)
Definition resolve (mode : Z) (s : cpu6502) : operand :=
  let b := read s (pc s + 1) in
  let w := read16 s (pc s + 1) in
  if mode =? ADDR_MODE_ACCUMULATOR then mk_operand (a s) false
  else if mode =? ADDR_MODE_IMMEDIATE then mk_operand b false
  else if mode =? ADDR_MODE_ZERO_PAGE then mk_operand b false
  else if mode =? ADDR_MODE_ZERO_PAGE_X then mk_operand (Z.land (b + x s) 0xff) false
  else if mode =? ADDR_MODE_ZERO_PAGE_Y then mk_operand (Z.land (b + y s) 0xff) false
  else if mode =? ADDR_MODE_ABSOLUTE then mk_operand w false
  else if mode =? ADDR_MODE_ABSOLUTE_X then
    mk_operand (to_uint16 (w + x s)) (page_crossed w (to_uint16 (w + x s)))
  else if mode =? ADDR_MODE_ABSOLUTE_Y then
    mk_operand (to_uint16 (w + y s)) (page_crossed w (to_uint16 (w + y s)))
  else if mode =? ADDR_MODE_INDIRECT then mk_operand (resolve_indirect s w) false
  else if mode =? ADDR_MODE_INDIRECT_X then
    mk_operand (read16 s (Z.land (b + x s) 0xff)) false
  else if mode =? ADDR_MODE_INDIRECT_Y then
    let base := read16 s b in
    mk_operand (to_uint16 (base + y s)) (page_crossed base (to_uint16 (base + y s)))
  else if mode =? ADDR_MODE_RELATIVE then
    let next := to_uint16 (pc s + 2) in
    let target := to_uint16 (next + signed8 b) in
    mk_operand target (page_crossed next target)
  else mk_operand 0 false.

(** Modelled from the spec: whether a branch is taken, which the missing
    executor has to decide; the condition is the one the header's
    enumeration names for each branch, [None] for what is not a branch. *)
Definition branch_taken (ty : Z) (s : cpu6502) : option bool :=
  if ty =? INSTR_TYPE_BCC then Some (flag FLAG_C s =? 0)
  else if ty =? INSTR_TYPE_BCS then Some (flag FLAG_C s =? 1)
  else if ty =? INSTR_TYPE_BEQ then Some (flag FLAG_Z s =? 1)
  else if ty =? INSTR_TYPE_BMI then Some (flag FLAG_N s =? 1)
  else if ty =? INSTR_TYPE_BNE then Some (flag FLAG_Z s =? 0)
  else if ty =? INSTR_TYPE_BPL then Some (flag FLAG_N s =? 0)
  else if ty =? INSTR_TYPE_BVC then Some (flag FLAG_V s =? 0)
  else if ty =? INSTR_TYPE_BVS then Some (flag FLAG_V s =? 1)
  else None.

(** Modelled from the spec: its "write-class" instructions, read as those
    that write memory at the resolved address, the stores and the
    read-modify-write operations. *)
Definition write_class (ty : Z) : bool :=
  existsb (Z.eqb ty)
    [ INSTR_TYPE_STA; INSTR_TYPE_STX; INSTR_TYPE_STY; INSTR_TYPE_INC;
      INSTR_TYPE_DEC; INSTR_TYPE_ASL; INSTR_TYPE_LSR; INSTR_TYPE_ROL;
      INSTR_TYPE_ROR ].

(** Modelled from the spec: the cycles beyond the base count.  A taken
    branch costs one, and one more across a page; a branch not taken costs
    none; a page crossing costs one on Absolute,X and Absolute,Y unless
    the instruction is of the write class, and one on Indirect,Y. *)
Definition penalty (mode ty : Z) (s : cpu6502) : Z :=
  let op := resolve mode s in
  match branch_taken ty s with
  | Some taken =>
      if taken then 1 + (if crossed op then 1 else 0) else 0
  | None =>
      if (mode =? ADDR_MODE_ABSOLUTE_X) || (mode =? ADDR_MODE_ABSOLUTE_Y) then
        if crossed op && negb (write_class ty) then 1 else 0
      else if mode =? ADDR_MODE_INDIRECT_Y then
        if crossed op then 1 else 0
      else 0
  end.

(** Modelled from the spec: [instruction_type_of] with its distinct
    "unassigned" variant ("opcodes with no defined 6502 semantics map to
    an explicit unassigned variant ... not reused as a legitimate value"),
    here [None].  The header's type table cannot serve for it as it is,
    since [INSTR_TYPE_NONE] is also the value of [INSTR_TYPE_CLC]; its
    mode table marks the same opcodes by [ADDR_MODE_NONE], which no mode
    shares, so an opcode is unassigned when its mode is [ADDR_MODE_NONE]
    and has the type of the type table otherwise. *)
Definition instruction_type_of (opcode : Z) : option Z :=
  if assigned opcode then index instruction_types_6502 opcode else None.

Section Executor.

(** The base cycle count of each opcode: a table the header does not
    have and the specification does not spell out. *)
Variable base_cycles_of : Z -> Z.

(** Modelled from the spec: the value the missing [execute(state, opcode)]
    returns, "base cycles plus any penalty reported by AddressResolver
    plus branch-taken penalty where applicable", or [None] for the
    InvalidOpcode condition "when the opcode's instruction type is
    unassigned".  The effects of the instruction on the state are not
    part of this model. *)
Definition execute_cycles (s : cpu6502) (opcode : Z) : option Z :=
  match index instruction_modes_6502 opcode, instruction_type_of opcode with
  | Some mode, Some ty => Some (base_cycles_of opcode + penalty mode ty s)
  | _, _ => None
  end.

End Executor.

(** JMP ($02FF) at [0x8000]: the pointer's low byte is [0xff]; [0x34] lies
    at the pointer, [0x12] at the start of its page and [0x56] at the
    start of the next. *)
Definition cpu6502_at_jmp_indirect : cpu6502 :=
  mk_cpu6502 0x8000 0xff 0 0 0 0x24
    (fun i =>
       if i =? 0x8000 then 0x6c
       else if i =? 0x8001 then 0xff
       else if i =? 0x8002 then 0x02
       else if i =? 0x02ff then 0x34
       else if i =? 0x0200 then 0x12
       else if i =? 0x0300 then 0x56
       else 0)
    RAM_SIZE 0 0 0.

(** LDA $02FF,X at [0x8000] with X = 1: the indexed address is on the
    next page. *)
Definition cpu6502_at_lda_absolute_x : cpu6502 :=
  mk_cpu6502 0x8000 0xff 0 1 0 0x24
    (fun i =>
       if i =? 0x8000 then 0xbd
       else if i =? 0x8001 then 0xff
       else if i =? 0x8002 then 0x02
       else 0)
    RAM_SIZE 0 0 0.

(** ** Groups of the instruction enumeration

    The enumeration is written in groups, each under a comment; two of
    them are named here for the statements about the tables. *)

(** The group "Branches". *)
Definition branch_types : list Z :=
  [ INSTR_TYPE_BCC; INSTR_TYPE_BCS; INSTR_TYPE_BEQ; INSTR_TYPE_BMI;
    INSTR_TYPE_BNE; INSTR_TYPE_BPL; INSTR_TYPE_BVC; INSTR_TYPE_BVS ].

(** The group "Shifts". *)
Definition shift_types : list Z :=
  [ INSTR_TYPE_ASL; INSTR_TYPE_LSR; INSTR_TYPE_ROL; INSTR_TYPE_ROR ].

(** Membership in a list of enumerators. *)
Definition among (v : Z) (l : list Z) : bool := existsb (Z.eqb v) l.

(** The first opcode at which the array [t] holds [v], if any. *)
Definition opcode_holding (t : list Z) (v : Z) : option Z :=
  find (fun o => match index t o with
                 | Some w => w =? v
                 | None => false
                 end) opcodes.

(** The two table entries of an opcode, as a pair. *)
Definition entry (opcode : Z) : option (Z * Z) :=
  match index instruction_modes_6502 opcode,
        index instruction_types_6502 opcode with
  | Some m, Some t => Some (m, t)
  | _, _ => None
  end.

(** A structure that differs from [cpu6502_vector_8000] in every member a
    reset overwrites. *)
Definition cpu6502_vector_8000_used : cpu6502 :=
  mk_cpu6502 0x1234 0x80 0x11 0x22 0x33 0xc9
    (fun i => if i =? 0xfffd then 0x80 else 0) 0 41 0 0.

(** * Properties of the embedding *)

(** ** Bits and bytes *)

Lemma testbit_bitfield_store (st k v j : Z) :
  0 <= k ->
  Z.testbit (bitfield_store st k v) j =
  if j =? k then Z.odd v else Z.testbit st j.
Proof.
  intros Hk. unfold bitfield_store.
  destruct (Z.odd v).
  - rewrite Z.setbit_eqb by assumption.
    rewrite (Z.eqb_sym j k). destruct (k =? j); reflexivity.
  - rewrite Z.clearbit_eqb.
    rewrite (Z.eqb_sym j k). destruct (k =? j); simpl.
    + apply andb_false_r.
    + apply andb_true_r.
Qed.

Lemma bitfield_store_range (st k v : Z) :
  0 <= k < 8 -> 0 <= st < 2 ^ 8 -> 0 <= bitfield_store st k v < 2 ^ 8.
Proof.
  intros Hk Hst.
  assert (Hhigh : forall j, 8 <= j -> Z.testbit st j = false).
  { intros j Hj. apply Z.bits_above_log2; [lia|].
    destruct (Z.eq_dec st 0) as [->|Hnz]; [simpl; lia|].
    apply Z.log2_lt_pow2; [lia|].
    apply Z.lt_le_trans with (2 ^ 8); [lia|].
    apply Z.pow_le_mono_r; lia. }
  assert (Hnew : forall j, 8 <= j -> Z.testbit (bitfield_store st k v) j = false).
  { intros j Hj. rewrite testbit_bitfield_store by lia.
    destruct (Z.eqb_spec j k); [lia|]. apply Hhigh; assumption. }
  assert (Hnn : 0 <= bitfield_store st k v).
  { unfold bitfield_store. destruct (Z.odd v).
    - unfold Z.setbit. apply Z.lor_nonneg. split; [lia|].
      apply Z.shiftl_nonneg. lia.
    - unfold Z.clearbit. apply Z.ldiff_nonneg. left. lia. }
  split; [assumption|].
  destruct (Z.eq_dec (bitfield_store st k v) 0) as [->|Hnz]; [lia|].
  destruct (Z.lt_ge_cases (bitfield_store st k v) (2 ^ 8)) as [|Hge]; [assumption|].
  exfalso.
  assert (Hlog : 8 <= Z.log2 (bitfield_store st k v)).
  { apply Z.log2_le_pow2; lia. }
  specialize (Hnew _ Hlog).
  rewrite Z.bit_log2 in Hnew by lia. discriminate.
Qed.

(** Two bytes put together low byte first. *)
Lemma byte_pair (lo hi : Z) :
  0 <= lo < 2 ^ 8 -> 0 <= hi < 2 ^ 8 ->
  Z.lor lo (Z.shiftl hi 8) = lo + 2 ^ 8 * hi.
Proof.
  intros Hlo Hhi.
  assert (Hdisj : Z.land lo (Z.shiftl hi 8) = 0).
  { apply Z.bits_inj'. intros n Hn.
    rewrite Z.land_spec, Z.bits_0.
    destruct (Z.lt_ge_cases n 8) as [Hlt|Hge].
    - rewrite Z.shiftl_spec_low by assumption. apply andb_false_r.
    - replace (Z.testbit lo n) with false; [reflexivity|].
      symmetry. destruct (Z.eq_dec lo 0) as [->|Hnz]; [apply Z.bits_0|].
      apply Z.bits_above_log2; [lia|].
      apply Z.lt_le_trans with 8; [|assumption].
      apply Z.log2_lt_pow2; lia. }
  rewrite <- Z.lxor_lor by assumption.
  rewrite <- Z.add_nocarry_lxor by assumption.
  rewrite Z.shiftl_mul_pow2 by lia. lia.
Qed.

(** The same as the header stores it in the 16-bit program counter. *)
Lemma little_endian_word (lo hi : Z) :
  0 <= lo < 2 ^ 8 -> 0 <= hi < 2 ^ 8 ->
  to_uint16 (Z.lor lo (Z.shiftl hi 8)) = lo + 2 ^ 8 * hi.
Proof.
  intros Hlo Hhi. rewrite byte_pair by assumption.
  unfold to_uint16. rewrite Z.mod_small; lia.
Qed.

(** ** What a call leaves behind *)

Lemma cpu6502_step_unfold (s : cpu6502) :
  cpu6502_step s = with_cycles_behind (to_size_t (cycles_behind s - 1)) s.
Proof.
  unfold cpu6502_step, cpu6502_step_stmt, with_cycles_behind, state_after,
    bind, get, ret.
  destruct (0 <? cycles_behind s); reflexivity.
Qed.

Lemma cpu6502_step_loads (s : cpu6502) : loads_of cpu6502_step_stmt s = [].
Proof.
  unfold loads_of, cpu6502_step_stmt, bind, get, ret.
  destruct (0 <? cycles_behind s); reflexivity.
Qed.

Lemma cpu6502_reset_unfold (s : cpu6502) :
  cpu6502_reset s =
  mk_cpu6502
    (to_uint16 (Z.lor (ram s RESET_VECTOR) (Z.shiftl (ram s (RESET_VECTOR + 1)) 8)))
    0xff 0 0 0 (reset_status (status s)) (ram s) RAM_SIZE 6
    (instruction_mode s) (data s).
Proof. reflexivity. Qed.

Lemma cpu6502_reset_loads (s : cpu6502) :
  loads_of cpu6502_reset_stmt s = [RESET_VECTOR; RESET_VECTOR + 1].
Proof. reflexivity. Qed.

Lemma testbit_reset_status (st j : Z) :
  Z.testbit (reset_status st) j =
  if j =? FLAG_C then false
  else if j =? FLAG_V then false
  else if j =? FLAG_N then false
  else if j =? FLAG_Z then true
  else if j =? FLAG_D then false
  else if j =? FLAG_I then true
  else Z.testbit st j.
Proof.
  unfold reset_status.
  rewrite !testbit_bitfield_store by (cbv; discriminate).
  reflexivity.
Qed.

Lemma steps_unfold (n : nat) (s : cpu6502) :
  exists d, steps n s = with_cycles_behind d s.
Proof.
  revert s. induction n as [|n IH]; intros s; simpl.
  - exists (cycles_behind s). destruct s; reflexivity.
  - destruct (IH (cpu6502_step s)) as [d Hd].
    exists d. rewrite Hd, cpu6502_step_unfold. reflexivity.
Qed.

(** Both operations keep a structure within the ranges of its members. *)
Lemma cpu6502_step_wf (s : cpu6502) : cpu6502_wf s -> cpu6502_wf (cpu6502_step s).
Proof.
  intros [? ? ? ? ? ? ? ? ? ?]. rewrite cpu6502_step_unfold.
  constructor; simpl; try assumption.
  unfold to_size_t. apply Z.mod_pos_bound. lia.
Qed.

Lemma cpu6502_reset_wf (s : cpu6502) : cpu6502_wf s -> cpu6502_wf (cpu6502_reset s).
Proof.
  intros [? ? ? ? ? Hst ? ? ? ?]. rewrite cpu6502_reset_unfold.
  constructor; simpl; try assumption; try lia.
  - unfold to_uint16. apply Z.mod_pos_bound. lia.
  - unfold reset_status.
    repeat (apply bitfield_store_range; [cbv; split; [discriminate|reflexivity]|]).
    assumption.
  - unfold RAM_SIZE. lia.
Qed.

(** ** Opcodes *)

Lemma opcodes_complete (opcode : Z) : 0 <= opcode < 256 -> In opcode opcodes.
Proof.
  intros H. unfold opcodes.
  rewrite <- (Z2Nat.id opcode) by lia.
  apply in_map, in_seq. lia.
Qed.

(** A property checked on each of the 256 opcodes holds of every opcode. *)
Lemma for_all_opcodes (p : Z -> bool) :
  forallb p opcodes = true ->
  forall opcode, 0 <= opcode < 256 -> p opcode = true.
Proof.
  intros Hall opcode Hop.
  rewrite forallb_forall in Hall. apply Hall, opcodes_complete, Hop.
Qed.

Lemma mem_In (v : Z) (l : list Z) : existsb (Z.eqb v) l = true -> In v l.
Proof.
  intros H. apply existsb_exists in H. destruct H as [w [Hin Heq]].
  apply Z.eqb_eq in Heq. subst w. exact Hin.
Qed.

(** ** Example structures *)

Lemma cpu6502_vector_8000_wf : cpu6502_wf cpu6502_vector_8000.
Proof.
  constructor; simpl; try lia.
  - intros i _. destruct (i =? 65533); lia.
  - unfold RAM_SIZE. lia.
Qed.

Lemma cpu6502_zero_wf : cpu6502_wf cpu6502_zero.
Proof. constructor; simpl; lia. Qed.

Lemma cpu6502_idle_at_sec_wf : cpu6502_wf cpu6502_idle_at_sec.
Proof.
  constructor; simpl; try lia.
  - intros i _. destruct (i =? 32768); lia.
  - unfold RAM_SIZE. lia.
Qed.

(** * The step operation *)

(** C1 (as amended).  A call to [cpu6502_step] only counts, in every
    state: it reads no byte of memory, so it fetches no opcode and no
    operand; the structure it leaves is the one it found with the cycle
    counter one lower modulo [2 ^ 64] and nothing else changed, so no
    instruction is executed, no interrupt taken and the counter is never
    re-armed with a cost, not even when no debt is left, where it wraps
    to [SIZE_MAX]; and with debt buffered the counter is just one less. *)
Theorem cpu6502_step_only_counts (s : cpu6502) :
  loads_of cpu6502_step_stmt s = []
  /\ cpu6502_step s = with_cycles_behind ((cycles_behind s - 1) mod 2 ^ 64) s
  /\ (0 < cycles_behind s < 2 ^ 64 ->
      cpu6502_step s = with_cycles_behind (cycles_behind s - 1) s)
  /\ (cycles_behind s = 0 -> cpu6502_step s = with_cycles_behind SIZE_MAX s).
Proof.
  split; [apply cpu6502_step_loads|].
  split; [apply cpu6502_step_unfold|]. split.
  - intros Hdebt. rewrite cpu6502_step_unfold.
    unfold to_size_t. rewrite Z.mod_small by lia. reflexivity.
  - intros Hzero. rewrite cpu6502_step_unfold, Hzero. reflexivity.
Qed.

(** With three cycles owed, a call leaves two and nothing else changed. *)
Lemma cpu6502_step_only_counts_busy :
  cpu6502_step cpu6502_busy = with_cycles_behind 2 cpu6502_busy.
Proof.
  apply (proj1 (proj2 (proj2 (cpu6502_step_only_counts cpu6502_busy)))).
  simpl. lia.
Defined.

(** C1 (as stated) fails where no cycle is owed.  At [cpu6502_idle_at_sec]
    the opcode under the program counter is SEC, yet after the call the
    carry flag is still clear, the program counter has not moved and the
    counter holds [SIZE_MAX] instead of an instruction's cost. *)
Lemma cpu6502_step_breaks_contract :
  cpu6502_wf cpu6502_idle_at_sec
  /\ cycles_behind cpu6502_idle_at_sec = 0
  /\ index instruction_types_6502 (ram cpu6502_idle_at_sec (pc cpu6502_idle_at_sec))
    = Some INSTR_TYPE_SEC
  /\ ~ step_contract cpu6502_idle_at_sec (cpu6502_step cpu6502_idle_at_sec)
  /\ flag FLAG_C (cpu6502_step cpu6502_idle_at_sec) = 0
  /\ pc (cpu6502_step cpu6502_idle_at_sec) = pc cpu6502_idle_at_sec
  /\ cycles_behind (cpu6502_step cpu6502_idle_at_sec) = SIZE_MAX.
Proof.
  split; [exact cpu6502_idle_at_sec_wf|].
  split; [reflexivity|]. split; [reflexivity|]. split; [|repeat split].
  intros [[Hdebt _] | [_ Heffect]].
  - simpl in Hdebt. lia.
  - vm_compute in Heffect. discriminate.
Qed.

(** C9.  A call to [cpu6502_step] takes one from the cycle counter modulo
    [2 ^ 64]: a counter at zero is left at [2 ^ 64 - 1]. *)
Theorem cpu6502_step_decrements (s : cpu6502) :
  cycles_behind (cpu6502_step s) = (cycles_behind s - 1) mod 2 ^ 64
  /\ (cycles_behind s = 0 -> cycles_behind (cpu6502_step s) = 2 ^ 64 - 1).
Proof.
  rewrite cpu6502_step_unfold. split; [reflexivity|].
  intros Hzero. simpl. rewrite Hzero. reflexivity.
Qed.

(** The underflow of C9 on the zeroed structure. *)
Lemma cpu6502_step_decrements_zero :
  cycles_behind (cpu6502_step cpu6502_zero) = 2 ^ 64 - 1.
Proof.
  apply (proj2 (cpu6502_step_decrements cpu6502_zero)). reflexivity.
Defined.

(** C10.  A call to [cpu6502_step] leaves the program counter, the stack
    pointer, the accumulator, both index registers, the status byte and
    with it every flag, and the whole memory as they were; so are the
    remaining members apart from the cycle counter. *)
Theorem cpu6502_step_frame (s : cpu6502) :
  pc (cpu6502_step s) = pc s
  /\ sp (cpu6502_step s) = sp s
  /\ a (cpu6502_step s) = a s
  /\ x (cpu6502_step s) = x s
  /\ y (cpu6502_step s) = y s
  /\ status (cpu6502_step s) = status s
  /\ (forall k, flag k (cpu6502_step s) = flag k s)
  /\ ram (cpu6502_step s) = ram s
  /\ ram_size (cpu6502_step s) = ram_size s
  /\ instruction_mode (cpu6502_step s) = instruction_mode s
  /\ data (cpu6502_step s) = data s.
Proof.
  rewrite cpu6502_step_unfold. unfold flag. simpl.
  repeat split.
Qed.

(** * Reset *)

(** C2.  After [cpu6502_reset] the program counter is the word stored low
    byte first at [0xfffc] and [0xfffd], interrupt-disable is set, decimal
    is clear, the stack pointer is [0xff], the cycle counter is 6 whatever
    the structure held before, and memory is as it was. *)
Theorem cpu6502_reset_spec (s : cpu6502) :
  cpu6502_wf s ->
  pc (cpu6502_reset s) = ram s 0xfffc + 2 ^ 8 * ram s 0xfffd
  /\ flag FLAG_I (cpu6502_reset s) = 1
  /\ flag FLAG_D (cpu6502_reset s) = 0
  /\ sp (cpu6502_reset s) = 0xff
  /\ cycles_behind (cpu6502_reset s) = 6
  /\ ram (cpu6502_reset s) = ram s.
Proof.
  intros Hwf. rewrite cpu6502_reset_unfold. unfold flag.
  cbn [pc sp status cycles_behind ram].
  rewrite !testbit_reset_status.
  repeat split.
  apply little_endian_word; apply (wf_ram s Hwf); unfold RAM_SIZE; lia.
Qed.

(** The reset scenario of the specification: the vector points at
    [0x8000]. *)
Lemma cpu6502_reset_spec_vector_8000 :
  pc (cpu6502_reset cpu6502_vector_8000) = 0x8000
  /\ flag FLAG_I (cpu6502_reset cpu6502_vector_8000) = 1
  /\ flag FLAG_D (cpu6502_reset cpu6502_vector_8000) = 0
  /\ sp (cpu6502_reset cpu6502_vector_8000) = 0xff
  /\ cycles_behind (cpu6502_reset cpu6502_vector_8000) = 6
  /\ ram (cpu6502_reset cpu6502_vector_8000) = ram cpu6502_vector_8000.
Proof.
  exact (cpu6502_reset_spec cpu6502_vector_8000 cpu6502_vector_8000_wf).
Defined.

(** C4 (as amended).  Neither [cpu6502_reset] nor [cpu6502_step] writes
    the unused bit: in every state reached from a reset by any number of
    steps it reads what it read before the reset. *)
Theorem unused_flag_kept (s : cpu6502) (n : nat) :
  flag FLAG_U (steps n (cpu6502_reset s)) = flag FLAG_U s.
Proof.
  destruct (steps_unfold n (cpu6502_reset s)) as [d Hd].
  rewrite Hd, cpu6502_reset_unfold.
  unfold flag, with_cycles_behind, state_after, put_cycles_behind.
  cbn [fst snd status].
  rewrite testbit_reset_status. reflexivity.
Qed.

(** C4 (as stated) fails on a structure that starts out zeroed: after the
    reset and any number of steps the unused bit still reads 0. *)
Lemma unused_flag_not_always_set :
  cpu6502_wf cpu6502_zero
  /\ flag FLAG_U (steps 7 (cpu6502_reset cpu6502_zero)) = 0
  /\ ~ unused_flag_always_set.
Proof.
  split; [exact cpu6502_zero_wf|]. split; [reflexivity|].
  intros Hset. specialize (Hset cpu6502_zero 7%nat).
  vm_compute in Hset. discriminate.
Qed.

(** * Memory *)

(** C8.  The byte store covers the 16-bit address space, and every index
    at which the two operations read [ram] is a 16-bit address, unchanged
    by reduction modulo [2 ^ 16] and so inside the store whatever its size
    beyond 64 KiB; neither operation writes [ram]; and the program counter
    that the reset computes is reduced modulo [2 ^ 16], not modulo the
    size of the store. *)
Theorem ram_accesses_within_address_space (s : cpu6502) :
  2 ^ 16 <= RAM_SIZE
  /\ Forall (fun i => 0 <= i < 2 ^ 16 /\ to_uint16 i = i /\ i < RAM_SIZE)
       (loads_of cpu6502_reset_stmt s ++ loads_of cpu6502_step_stmt s)
  /\ ram (cpu6502_reset s) = ram s
  /\ ram (cpu6502_step s) = ram s
  /\ 0 <= pc (cpu6502_reset s) < 2 ^ 16.
Proof.
  rewrite cpu6502_reset_loads, cpu6502_step_loads.
  rewrite cpu6502_reset_unfold, cpu6502_step_unfold.
  split; [unfold RAM_SIZE; lia|]. split.
  - repeat constructor; try (unfold RAM_SIZE; cbv; congruence).
  - split; [reflexivity|]. split; [reflexivity|].
    cbn [pc]. unfold to_uint16. apply Z.mod_pos_bound. lia.
Qed.

(** * The opcode tables *)

(** Both tables have one entry for each opcode byte. *)
Lemma tables_length :
  length instruction_modes_6502 = 256%nat
  /\ length instruction_types_6502 = 256%nat.
Proof. split; reflexivity. Qed.

(** [ADDR_MODE_NONE] is the value of no addressing mode. *)
Lemma addr_mode_none_fresh : ~ In ADDR_MODE_NONE addressing_modes.
Proof.
  intros H. repeat (destruct H as [H|H]; [discriminate H|]). exact H.
Qed.

(** The instruction-type table yields the sentinel on the opcodes without
    an instruction and on [0x18] besides. *)
Lemma invalid_opcode_cases (opcode : Z) :
  0 <= opcode < 256 ->
  invalid_opcode opcode = negb (assigned opcode) || (opcode =? 0x18).
Proof.
  intros Hop.
  assert (H := for_all_opcodes
    (fun o => Bool.eqb (invalid_opcode o) (negb (assigned o) || (o =? 0x18)))).
  specialize (H eq_refl opcode Hop).
  apply Bool.eqb_prop in H. exact H.
Qed.

(** C3 at opcode [0x18].  [INSTR_TYPE_NONE] is the value of
    [INSTR_TYPE_CLC]: the opcode of CLC has an addressing mode, so it is
    assigned, and the comparison with the sentinel calls it invalid. *)
Theorem instr_type_none_is_clc :
  INSTR_TYPE_NONE = INSTR_TYPE_CLC
  /\ In INSTR_TYPE_NONE instr_types
  /\ index instruction_modes_6502 0x18 = Some ADDR_MODE_IMPLIED
  /\ index instruction_types_6502 0x18 = Some INSTR_TYPE_CLC
  /\ assigned 0x18 = true
  /\ invalid_opcode 0x18 = true.
Proof.
  split; [reflexivity|]. split; [|repeat split].
  apply mem_In. reflexivity.
Qed.

(** C5 (as amended).  For every opcode byte the tables give an addressing
    mode or [ADDR_MODE_NONE], and an instruction type (of which
    [INSTR_TYPE_NONE] is one by value); they give no cycle count. *)
Theorem descriptor_mode_and_type (opcode : Z) :
  0 <= opcode < 256 ->
  exists m t,
    descriptor AddressingMode opcode = Some m
    /\ In m (ADDR_MODE_NONE :: addressing_modes)
    /\ descriptor InstructionType opcode = Some t
    /\ In t instr_types
    /\ descriptor BaseCycles opcode = None.
Proof.
  intros Hop.
  pose (p := fun o =>
    match descriptor AddressingMode o, descriptor InstructionType o with
    | Some m, Some t =>
        existsb (Z.eqb m) (ADDR_MODE_NONE :: addressing_modes)
        && existsb (Z.eqb t) instr_types
    | _, _ => false
    end).
  assert (H : p opcode = true) by (apply for_all_opcodes; [reflexivity|exact Hop]).
  unfold p in H.
  destruct (descriptor AddressingMode opcode) as [m|]; [|discriminate].
  destruct (descriptor InstructionType opcode) as [t|]; [|discriminate].
  apply andb_true_iff in H. destruct H as [Hm Ht].
  exists m, t. repeat split; auto using mem_In.
Qed.

(** The descriptor of JMP indirect, opcode [0x6c]. *)
Lemma descriptor_mode_and_type_jmp_indirect :
  exists m t,
    descriptor AddressingMode 0x6c = Some m
    /\ In m (ADDR_MODE_NONE :: addressing_modes)
    /\ descriptor InstructionType 0x6c = Some t
    /\ In t instr_types
    /\ descriptor BaseCycles 0x6c = None.
Proof.
  apply (descriptor_mode_and_type 0x6c). lia.
Defined.

(** C5 (as stated) fails at every opcode, [0x00] among them: the header
    has no array for the third field. *)
Lemma descriptor_not_determined : ~ descriptor_determined 0x00.
Proof.
  intros H. destruct (H BaseCycles) as [v Hv]. discriminate Hv.
Qed.

(** * The address resolver and the executor of the specification *)

Lemma read_byte (s : cpu6502) (addr : Z) :
  cpu6502_wf s -> 0 <= read s addr < 2 ^ 8.
Proof.
  intros Hwf. unfold read. apply (wf_ram s Hwf).
  unfold to_uint16, RAM_SIZE.
  pose proof (Z.mod_pos_bound addr (2 ^ 16)). lia.
Qed.

Lemma read16_value (s : cpu6502) (addr : Z) :
  cpu6502_wf s ->
  read16 s addr = read s addr + 2 ^ 8 * read s (addr + 1)
  /\ 0 <= read16 s addr < 2 ^ 16.
Proof.
  intros Hwf. unfold read16.
  pose proof (read_byte s addr Hwf).
  pose proof (read_byte s (addr + 1) Hwf).
  rewrite byte_pair by assumption. lia.
Qed.

Lemma index_defined (t : list Z) (opcode : Z) :
  length t = 256%nat -> 0 <= opcode < 256 -> exists v, index t opcode = Some v.
Proof.
  intros Hlen Hop. unfold index.
  destruct (Z.ltb_spec opcode 0) as [|_]; [lia|].
  destruct (nth_error t (Z.to_nat opcode)) as [v|] eqn:E; [exists v; reflexivity|].
  apply nth_error_None in E. lia.
Qed.

Lemma penalty_range (mode ty : Z) (s : cpu6502) : 0 <= penalty mode ty s <= 2.
Proof.
  unfold penalty.
  destruct (branch_taken ty s) as [[|]|];
    repeat match goal with
           | |- context [if ?c then _ else _] => destruct c
           end; lia.
Qed.

Lemma cpu6502_at_jmp_indirect_wf : cpu6502_wf cpu6502_at_jmp_indirect.
Proof.
  constructor; simpl; try lia.
  - intros i _.
    repeat match goal with
           | |- context [if ?c then _ else _] => destruct c
           end; lia.
  - unfold RAM_SIZE. lia.
Qed.

Lemma cpu6502_at_lda_absolute_x_wf : cpu6502_wf cpu6502_at_lda_absolute_x.
Proof.
  constructor; simpl; try lia.
  - intros i _.
    repeat match goal with
           | |- context [if ?c then _ else _] => destruct c
           end; lia.
  - unfold RAM_SIZE. lia.
Qed.

(** The instruction type is defined on the assigned opcodes and on no
    other, where it is the entry of the type table. *)
Lemma instruction_type_of_defined (opcode : Z) :
  0 <= opcode < 256 ->
  (instruction_type_of opcode <> None <-> assigned opcode = true)
  /\ (assigned opcode = true ->
      instruction_type_of opcode = index instruction_types_6502 opcode).
Proof.
  intros Hop. unfold instruction_type_of.
  destruct (index_defined _ _ (proj2 tables_length) Hop) as [ty Hty].
  rewrite Hty.
  destruct (assigned opcode); split; try split; congruence.
Qed.

(** CLC, opcode [0x18], has a defined type although the type table holds
    the value of [INSTR_TYPE_NONE] for it, and 151 opcodes have one. *)
Lemma instruction_type_of_clc :
  instruction_type_of 0x18 = Some INSTR_TYPE_CLC
  /\ length (filter (fun o => match instruction_type_of o with
                              | Some _ => true
                              | None => false
                              end) opcodes) = 151%nat.
Proof. split; reflexivity. Qed.

(** An opcode without an instruction is the InvalidOpcode condition. *)
Lemma execute_cycles_invalid
  (base_cycles_of : Z -> Z) (s : cpu6502) (opcode : Z) :
  instruction_type_of opcode = None ->
  execute_cycles base_cycles_of s opcode = None.
Proof.
  intros H. unfold execute_cycles. rewrite H.
  destruct (index instruction_modes_6502 opcode); reflexivity.
Qed.

(** C6, on the cycle count as the specification defines it.  For every
    opcode byte whose instruction type is defined, that is every assigned
    opcode, CLC among them, and whatever the base cycle table,
    [execute_cycles] returns a count, and the count is the base count of
    the table or up to two cycles more. *)
Theorem execute_cycles_at_least_base
  (base_cycles_of : Z -> Z) (s : cpu6502) (opcode : Z) :
  0 <= opcode < 256 ->
  instruction_type_of opcode <> None ->
  exists cycles,
    execute_cycles base_cycles_of s opcode = Some cycles
    /\ base_cycles_of opcode <= cycles <= base_cycles_of opcode + 2.
Proof.
  intros Hop Hdefined.
  destruct tables_length as [Hmodes _].
  destruct (index_defined _ _ Hmodes Hop) as [mode Hmode].
  unfold execute_cycles. rewrite Hmode.
  destruct (instruction_type_of opcode) as [ty|]; [|congruence].
  eexists. split; [reflexivity|].
  pose proof (penalty_range mode ty s). lia.
Qed.

(** LDA $02FF,X with X = 1 and a base count of 4: the page crossing makes
    it 5. *)
Lemma execute_cycles_at_least_base_lda :
  exists cycles,
    execute_cycles (fun _ => 4) cpu6502_at_lda_absolute_x 0xbd = Some cycles
    /\ 4 <= cycles <= 4 + 2.
Proof.
  apply (execute_cycles_at_least_base (fun _ => 4) cpu6502_at_lda_absolute_x 0xbd).
  - lia.
  - discriminate.
Defined.

(** C7, on the resolver as the specification defines it.  When the low
    byte of the pointer of an indirect jump is [0xff], the low byte of the
    target is read at the pointer and the high byte at the start of the
    pointer's own page, while the address after the pointer lies on the
    next page. *)
Theorem indirect_jump_page_wrap (s : cpu6502) :
  cpu6502_wf s ->
  low_byte (read16 s (pc s + 1)) = 0xff ->
  effective (resolve ADDR_MODE_INDIRECT s)
    = read s (read16 s (pc s + 1))
      + 2 ^ 8 * read s (page_start (read16 s (pc s + 1)))
  /\ effective (resolve ADDR_MODE_INDIRECT s) / 2 ^ 8
     = read s (page_start (read16 s (pc s + 1)))
  /\ page_of (page_start (read16 s (pc s + 1))) = page_of (read16 s (pc s + 1))
  /\ low_byte (page_start (read16 s (pc s + 1))) = 0
  /\ page_of (read16 s (pc s + 1) + 1) = page_of (read16 s (pc s + 1)) + 1.
Proof.
  intros Hwf Hlow.
  set (ptr := read16 s (pc s + 1)) in *.
  assert (Heff : effective (resolve ADDR_MODE_INDIRECT s)
                 = read s ptr + 2 ^ 8 * read s (page_start ptr)).
  { change (effective (resolve ADDR_MODE_INDIRECT s)) with (resolve_indirect s ptr).
    unfold resolve_indirect. rewrite Hlow. cbn [Z.eqb Pos.eqb].
    apply byte_pair; apply read_byte; assumption. }
  pose proof (read_byte s ptr Hwf) as Hlo.
  pose proof (read_byte s (page_start ptr) Hwf) as Hhi.
  unfold low_byte, page_of, page_start, PAGE_SIZE in *.
  pose proof (Z.div_mod ptr 256 ltac:(lia)) as Hptr.
  split; [exact Heff|]. split; [|split; [|split]].
  - rewrite Heff. symmetry.
    apply (Z.div_unique _ _ _ (read s ptr)); lia.
  - rewrite Z.mul_comm. apply Z.div_mul. lia.
  - rewrite Z.mul_comm. apply Z.mod_mul. lia.
  - symmetry. apply (Z.div_unique _ _ _ 0); lia.
Qed.

(** JMP ($02FF): the target is [0x1234], its high byte read at [0x0200]
    and not at [0x0300]. *)
Lemma indirect_jump_page_wrap_02ff :
  effective (resolve ADDR_MODE_INDIRECT cpu6502_at_jmp_indirect) = 0x1234.
Proof.
  rewrite (proj1 (indirect_jump_page_wrap cpu6502_at_jmp_indirect
                    cpu6502_at_jmp_indirect_wf eq_refl)).
  reflexivity.
Defined.

(** * Further properties of the header *)

(** A second reset changes nothing. *)
Theorem cpu6502_reset_idempotent (s : cpu6502) :
  cpu6502_reset (cpu6502_reset s) = cpu6502_reset s.
Proof.
  rewrite !cpu6502_reset_unfold. cbn [pc sp a x y status ram ram_size
    cycles_behind instruction_mode data].
  f_equal.
  apply Z.bits_inj'. intros n Hn.
  rewrite !testbit_reset_status.
  repeat match goal with
         | |- context [if ?c then _ else _] => destruct c
         end; reflexivity.
Qed.

(** Besides what C2 lists, a reset clears the accumulator and the index
    registers, sets the zero flag, clears negative, overflow and carry,
    records the size of the store, and leaves the break flag alone. *)
Theorem cpu6502_reset_registers (s : cpu6502) :
  a (cpu6502_reset s) = 0
  /\ x (cpu6502_reset s) = 0
  /\ y (cpu6502_reset s) = 0
  /\ flag FLAG_Z (cpu6502_reset s) = 1
  /\ flag FLAG_N (cpu6502_reset s) = 0
  /\ flag FLAG_V (cpu6502_reset s) = 0
  /\ flag FLAG_C (cpu6502_reset s) = 0
  /\ flag FLAG_B (cpu6502_reset s) = flag FLAG_B s
  /\ ram_size (cpu6502_reset s) = RAM_SIZE.
Proof.
  rewrite cpu6502_reset_unfold. unfold flag.
  cbn [a x y status ram_size].
  rewrite !testbit_reset_status.
  repeat split.
Qed.

(** After [n] steps the counter is [n] lower, modulo [2 ^ 64]. *)
Theorem steps_cycles_behind (n : nat) (s : cpu6502) :
  0 <= cycles_behind s < 2 ^ 64 ->
  steps n s = with_cycles_behind ((cycles_behind s - Z.of_nat n) mod 2 ^ 64) s.
Proof.
  revert s. induction n as [|n IH]; intros s Hcb.
  - cbn [steps]. rewrite Z.sub_0_r, Z.mod_small by assumption.
    destruct s; reflexivity.
  - cbn [steps]. rewrite IH.
    + rewrite cpu6502_step_unfold.
      unfold with_cycles_behind, state_after, put_cycles_behind, to_size_t.
      cbn [fst snd pc sp a x y status ram ram_size cycles_behind
           instruction_mode data].
      f_equal.
      rewrite Zminus_mod_idemp_l. f_equal. lia.
    + rewrite cpu6502_step_unfold. cbn. unfold to_size_t.
      apply Z.mod_pos_bound. lia.
Qed.

(** Three steps pay off the three cycles of [cpu6502_busy]. *)
Lemma steps_cycles_behind_busy :
  steps 3 cpu6502_busy = with_cycles_behind 0 cpu6502_busy.
Proof.
  apply (steps_cycles_behind 3 cpu6502_busy). simpl. lia.
Defined.

(** The six cycles of a reset are paid off by six steps; the seventh
    wraps the counter around. *)
Theorem reset_then_steps (s : cpu6502) :
  cycles_behind (steps 6 (cpu6502_reset s)) = 0
  /\ cycles_behind (steps 7 (cpu6502_reset s)) = SIZE_MAX.
Proof.
  cbn [steps]. rewrite !cpu6502_step_unfold, cpu6502_reset_unfold.
  split; reflexivity.
Qed.

(** [0x6c] is the one opcode with indirect addressing, and it is a JMP. *)
Theorem indirect_only_jmp (opcode : Z) :
  0 <= opcode < 256 ->
  index instruction_modes_6502 opcode = Some ADDR_MODE_INDIRECT ->
  opcode = 0x6c /\ index instruction_types_6502 opcode = Some INSTR_TYPE_JMP.
Proof.
  intros Hop Hmode.
  assert (H := for_all_opcodes
    (fun o =>
       match index instruction_modes_6502 o with
       | Some m =>
           negb (m =? ADDR_MODE_INDIRECT)
           || ((o =? 0x6c)
               && match index instruction_types_6502 o with
                  | Some t => t =? INSTR_TYPE_JMP
                  | None => false
                  end)
       | None => false
       end) eq_refl opcode Hop).
  cbv beta in H. rewrite Hmode in H.
  rewrite Z.eqb_refl in H. cbn [negb orb] in H.
  apply andb_true_iff in H. destruct H as [Heq Hty].
  apply Z.eqb_eq in Heq. split; [exact Heq|].
  destruct (index instruction_types_6502 opcode) as [t|]; [|discriminate].
  apply Z.eqb_eq in Hty. subst t. reflexivity.
Qed.

Lemma indirect_only_jmp_6c :
  0x6c = 0x6c /\ index instruction_types_6502 0x6c = Some INSTR_TYPE_JMP.
Proof.
  apply (indirect_only_jmp 0x6c); [lia | reflexivity].
Defined.

(** The sentinel test at an opcode without an instruction. *)
Lemma invalid_opcode_cases_02 :
  invalid_opcode 0x02 = negb (assigned 0x02) || (0x02 =? 0x18).
Proof.
  apply (invalid_opcode_cases 0x02). lia.
Defined.

(** * Invariants and composition of the two operations *)

(** Both operations keep every member of the structure within the range
    of its C type, and so does any number of steps. *)
Theorem cpu6502_wf_preserved (s : cpu6502) :
  cpu6502_wf s ->
  cpu6502_wf (cpu6502_reset s)
  /\ cpu6502_wf (cpu6502_step s)
  /\ forall n, cpu6502_wf (steps n s).
Proof.
  intros Hwf. split; [apply cpu6502_reset_wf, Hwf|].
  split; [apply cpu6502_step_wf, Hwf|].
  intros n. revert s Hwf. induction n as [|n IH]; intros s Hwf.
  - exact Hwf.
  - cbn [steps]. apply IH, cpu6502_step_wf, Hwf.
Qed.

Lemma cpu6502_wf_preserved_vector_8000 :
  cpu6502_wf (cpu6502_reset cpu6502_vector_8000)
  /\ cpu6502_wf (cpu6502_step cpu6502_vector_8000)
  /\ forall n, cpu6502_wf (steps n cpu6502_vector_8000).
Proof.
  exact (cpu6502_wf_preserved cpu6502_vector_8000 cpu6502_vector_8000_wf).
Defined.

(** A reset undoes whatever steps came before it: the state after the
    reset is the same as if they had not been made. *)
Theorem cpu6502_reset_absorbs_steps (n : nat) (s : cpu6502) :
  cpu6502_reset (steps n s) = cpu6502_reset s.
Proof.
  destruct (steps_unfold n s) as [d Hd]. rewrite Hd.
  rewrite !cpu6502_reset_unfold. reflexivity.
Qed.

Lemma testbit_byte_high (st n : Z) :
  0 <= st < 2 ^ 8 -> 8 <= n -> Z.testbit st n = false.
Proof.
  intros Hst Hn.
  destruct (Z.eq_dec st 0) as [->|Hnz]; [apply Z.bits_0|].
  apply Z.bits_above_log2; [lia|].
  apply Z.lt_le_trans with 8; [|assumption].
  apply Z.log2_lt_pow2; lia.
Qed.

(** The status byte after a reset keeps the break and the unused bit of
    the byte before it and is otherwise fixed: zero and interrupt-disable
    set, the rest clear. *)
Theorem cpu6502_reset_status_value (s : cpu6502) :
  0 <= status s < 2 ^ 8 ->
  status (cpu6502_reset s) = Z.lor (Z.land (status s) 0x30) 0x06.
Proof.
  intros Hst. rewrite cpu6502_reset_unfold. cbn [status].
  apply Z.bits_inj'. intros n Hn.
  rewrite testbit_reset_status, Z.lor_spec, Z.land_spec.
  destruct (Z.lt_ge_cases n 8) as [Hlt|Hge].
  - assert (Hcases : n = 0 \/ n = 1 \/ n = 2 \/ n = 3 \/ n = 4 \/ n = 5
                     \/ n = 6 \/ n = 7) by lia.
    destruct Hcases as [->|[->|[->|[->|[->|[->|[->| ->]]]]]]];
      cbn; rewrite ?andb_true_r, ?andb_false_r, ?orb_false_r, ?orb_true_r;
      reflexivity.
  - rewrite (testbit_byte_high (status s) n Hst Hge).
    rewrite (testbit_byte_high 0x06 n) by lia.
    replace (n =? FLAG_C) with false by (symmetry; apply Z.eqb_neq; unfold FLAG_C; lia).
    replace (n =? FLAG_V) with false by (symmetry; apply Z.eqb_neq; unfold FLAG_V; lia).
    replace (n =? FLAG_N) with false by (symmetry; apply Z.eqb_neq; unfold FLAG_N; lia).
    replace (n =? FLAG_Z) with false by (symmetry; apply Z.eqb_neq; unfold FLAG_Z; lia).
    replace (n =? FLAG_D) with false by (symmetry; apply Z.eqb_neq; unfold FLAG_D; lia).
    replace (n =? FLAG_I) with false by (symmetry; apply Z.eqb_neq; unfold FLAG_I; lia).
    reflexivity.
Qed.

(** From status [0xc9] (N, V, D and C set) a reset leaves [0x06]. *)
Lemma cpu6502_reset_status_value_c9 :
  status (cpu6502_reset cpu6502_vector_8000_used) = 0x06.
Proof.
  rewrite (cpu6502_reset_status_value cpu6502_vector_8000_used)
    by (simpl; lia).
  reflexivity.
Defined.

(** A reset forgets the registers, the cycle counter, the recorded size
    and six of the flags: two structures that agree on memory, on the
    break and unused bits and on the two members a reset does not assign
    are the same after it. *)
Theorem cpu6502_reset_forgets (s1 s2 : cpu6502) :
  0 <= status s1 < 2 ^ 8 ->
  0 <= status s2 < 2 ^ 8 ->
  ram s1 = ram s2 ->
  flag FLAG_B s1 = flag FLAG_B s2 ->
  flag FLAG_U s1 = flag FLAG_U s2 ->
  instruction_mode s1 = instruction_mode s2 ->
  data s1 = data s2 ->
  cpu6502_reset s1 = cpu6502_reset s2.
Proof.
  intros Hst1 Hst2 Hram Hb Hu Hmode Hdata.
  assert (Hstatus : status (cpu6502_reset s1) = status (cpu6502_reset s2)).
  { rewrite !cpu6502_reset_unfold. cbn [status].
    apply Z.bits_inj'. intros n Hn.
    rewrite !testbit_reset_status.
    unfold flag in Hb, Hu.
    repeat match goal with
           | |- context [if ?c then _ else _] => destruct c eqn:?
           end; try reflexivity.
    destruct (Z.eq_dec n FLAG_B) as [->|Hnb].
    { destruct (Z.testbit (status s1) FLAG_B), (Z.testbit (status s2) FLAG_B);
        simpl in Hb; congruence. }
    destruct (Z.eq_dec n FLAG_U) as [->|Hnu].
    { destruct (Z.testbit (status s1) FLAG_U), (Z.testbit (status s2) FLAG_U);
        simpl in Hu; congruence. }
    rewrite !testbit_byte_high; try assumption; try reflexivity;
      repeat match goal with
             | H : (_ =? _) = false |- _ =>
                 apply Z.eqb_neq in H
             end;
      unfold FLAG_C, FLAG_Z, FLAG_I, FLAG_D, FLAG_B, FLAG_U, FLAG_V, FLAG_N in *;
      lia. }
  rewrite !cpu6502_reset_unfold in *. cbn [status] in Hstatus.
  rewrite Hram, Hmode, Hdata, Hstatus. reflexivity.
Qed.

(** Two structures with different registers, flags and counters and the
    same memory reset to the same state. *)
Lemma cpu6502_reset_forgets_used :
  cpu6502_reset cpu6502_vector_8000_used = cpu6502_reset cpu6502_vector_8000.
Proof.
  apply cpu6502_reset_forgets; try reflexivity; simpl; lia.
Defined.

(** A step always changes the state: whatever the cycle counter holds, it
    holds something else afterwards, so no state is a resting point. *)
Theorem cpu6502_step_never_rests (s : cpu6502) : cpu6502_step s <> s.
Proof.
  intros Heq.
  assert (Hcb : cycles_behind (cpu6502_step s) = cycles_behind s)
    by (rewrite Heq; reflexivity).
  rewrite cpu6502_step_unfold in Hcb.
  unfold with_cycles_behind, state_after, put_cycles_behind, to_size_t in Hcb.
  cbn [fst snd cycles_behind] in Hcb.
  pose proof (Z.mod_pos_bound (cycles_behind s - 1) (2 ^ 64) ltac:(lia)) as Hb.
  destruct (Z.eq_dec (cycles_behind s) 0) as [Hz|Hnz].
  - rewrite Hz in Hcb. vm_compute in Hcb. discriminate.
  - rewrite Z.mod_small in Hcb by lia. lia.
Qed.

(** A step loses nothing: two structures with counters in range that are
    the same after a step were the same before it. *)
Theorem cpu6502_step_injective (s1 s2 : cpu6502) :
  0 <= cycles_behind s1 < 2 ^ 64 ->
  0 <= cycles_behind s2 < 2 ^ 64 ->
  cpu6502_step s1 = cpu6502_step s2 ->
  s1 = s2.
Proof.
  intros H1 H2 Heq.
  rewrite !cpu6502_step_unfold in Heq.
  assert (Hcb := f_equal cycles_behind Heq).
  unfold with_cycles_behind, state_after, put_cycles_behind, to_size_t in Heq, Hcb.
  cbn [fst snd cycles_behind] in Heq, Hcb.
  assert (Hsame : cycles_behind s1 = cycles_behind s2).
  { destruct (Z.eq_dec (cycles_behind s1) 0) as [Hz1|Hn1];
      destruct (Z.eq_dec (cycles_behind s2) 0) as [Hz2|Hn2].
    - congruence.
    - rewrite Hz1 in Hcb. rewrite (Z.mod_small (cycles_behind s2 - 1)) in Hcb by lia.
      change ((0 - 1) mod 2 ^ 64) with (2 ^ 64 - 1) in Hcb. lia.
    - rewrite Hz2 in Hcb. rewrite (Z.mod_small (cycles_behind s1 - 1)) in Hcb by lia.
      change ((0 - 1) mod 2 ^ 64) with (2 ^ 64 - 1) in Hcb. lia.
    - rewrite !Z.mod_small in Hcb by lia. lia. }
  destruct s1, s2. cbn [pc sp a x y status ram ram_size cycles_behind
    instruction_mode data] in *.
  injection Heq as -> -> -> -> -> -> -> -> _ -> ->.
  subst. reflexivity.
Qed.

Lemma cpu6502_step_injective_busy : cpu6502_busy = cpu6502_busy.
Proof.
  apply (cpu6502_step_injective cpu6502_busy cpu6502_busy);
    [simpl; lia | simpl; lia | reflexivity].
Defined.

(** The counter of [n] steps, for the statements on paying off debt. *)
Lemma steps_counter (n : nat) (s : cpu6502) :
  0 <= cycles_behind s < 2 ^ 64 ->
  Z.of_nat n <= cycles_behind s ->
  cycles_behind (steps n s) = cycles_behind s - Z.of_nat n.
Proof.
  revert s. induction n as [|n IH]; intros s Hcb Hn.
  - cbn [steps]. lia.
  - cbn [steps].
    assert (Hstep : cycles_behind (cpu6502_step s) = cycles_behind s - 1).
    { rewrite cpu6502_step_unfold. cbn. unfold to_size_t.
      apply Z.mod_small. lia. }
    rewrite IH; lia.
Qed.

(** Debt is paid off one cycle a step and without wrapping: a counter in
    range that holds [c] is zero after exactly [c] steps and positive
    after any fewer. *)
Theorem debt_paid_off (s : cpu6502) :
  0 <= cycles_behind s < 2 ^ 64 ->
  cycles_behind (steps (Z.to_nat (cycles_behind s)) s) = 0
  /\ forall n, Z.of_nat n < cycles_behind s -> 0 < cycles_behind (steps n s).
Proof.
  intros Hcb. split.
  - rewrite steps_counter; lia.
  - intros n Hn. rewrite steps_counter; lia.
Qed.

Lemma debt_paid_off_busy :
  cycles_behind (steps (Z.to_nat (cycles_behind cpu6502_busy)) cpu6502_busy) = 0
  /\ forall n, Z.of_nat n < cycles_behind cpu6502_busy ->
               0 < cycles_behind (steps n cpu6502_busy).
Proof.
  apply (debt_paid_off cpu6502_busy). simpl. lia.
Defined.

(** * More on the opcode tables *)

Lemma among_In (v : Z) (l : list Z) : among v l = true <-> In v l.
Proof.
  unfold among. rewrite existsb_exists. split.
  - intros [w [Hin Heq]]. apply Z.eqb_eq in Heq. subst w. exact Hin.
  - intros Hin. exists v. split; [exact Hin|apply Z.eqb_refl].
Qed.

(** The fourteen addressing-mode enumerators are pairwise different, and
    so are the fifty-six enumerators that name an instruction: comparing
    values tells modes apart and tells instructions apart. *)
Theorem enumerators_distinct :
  NoDup (ADDR_MODE_NONE :: addressing_modes) /\ NoDup instr_types.
Proof.
  split.
  - repeat (constructor;
            [intros H; repeat (destruct H as [H|H]; [discriminate H|]); exact H|]).
    constructor.
  - repeat (constructor;
            [intros H; repeat (destruct H as [H|H]; [discriminate H|]); exact H|]).
    constructor.
Qed.

(** An opcode has relative addressing exactly when its instruction is one
    of the eight branches. *)
Theorem relative_iff_branch (opcode : Z) :
  0 <= opcode < 256 ->
  (index instruction_modes_6502 opcode = Some ADDR_MODE_RELATIVE
   <-> exists t, index instruction_types_6502 opcode = Some t
                 /\ In t branch_types).
Proof.
  intros Hop.
  assert (H := for_all_opcodes
    (fun o =>
       match entry o with
       | Some (m, t) => Bool.eqb (m =? ADDR_MODE_RELATIVE) (among t branch_types)
       | None => false
       end) eq_refl opcode Hop).
  cbv beta in H. unfold entry in H.
  destruct (index instruction_modes_6502 opcode) as [m|]; [|discriminate].
  destruct (index instruction_types_6502 opcode) as [t|]; [|discriminate].
  apply Bool.eqb_prop in H. split.
  - intros Hm. injection Hm as ->. exists t. split; [reflexivity|].
    apply among_In. rewrite <- H. reflexivity.
  - intros [t' [Ht Hin]]. injection Ht as <-.
    apply among_In in Hin. rewrite Hin in H.
    apply Z.eqb_eq in H. subst m. reflexivity.
Qed.

Lemma relative_iff_branch_bne :
  index instruction_modes_6502 0xd0 = Some ADDR_MODE_RELATIVE
  <-> exists t, index instruction_types_6502 0xd0 = Some t
                /\ In t branch_types.
Proof.
  apply (relative_iff_branch 0xd0). lia.
Defined.

(** Accumulator addressing is used by the four shifts and rotates only. *)
Theorem accumulator_only_shifts (opcode : Z) :
  0 <= opcode < 256 ->
  index instruction_modes_6502 opcode = Some ADDR_MODE_ACCUMULATOR ->
  exists t, index instruction_types_6502 opcode = Some t /\ In t shift_types.
Proof.
  intros Hop Hm.
  assert (H := for_all_opcodes
    (fun o =>
       match entry o with
       | Some (m, t) => negb (m =? ADDR_MODE_ACCUMULATOR) || among t shift_types
       | None => false
       end) eq_refl opcode Hop).
  cbv beta in H. unfold entry in H. rewrite Hm in H.
  destruct (index instruction_types_6502 opcode) as [t|]; [|discriminate].
  rewrite Z.eqb_refl in H. cbn [negb orb] in H.
  exists t. split; [reflexivity|]. apply among_In, H.
Qed.

Lemma accumulator_only_shifts_0a :
  exists t, index instruction_types_6502 0x0a = Some t /\ In t shift_types.
Proof.
  apply (accumulator_only_shifts 0x0a); [lia | reflexivity].
Defined.

Lemma opcodes_range (opcode : Z) : In opcode opcodes -> 0 <= opcode < 256.
Proof.
  unfold opcodes. intros H. apply in_map_iff in H.
  destruct H as [n [<- Hn]]. apply in_seq in Hn. lia.
Qed.

Lemma opcode_holding_sound (t : list Z) (v opcode : Z) :
  opcode_holding t v = Some opcode ->
  0 <= opcode < 256 /\ index t opcode = Some v.
Proof.
  unfold opcode_holding. intros H. apply find_some in H.
  destruct H as [Hin Hv]. split; [apply opcodes_range, Hin|].
  destruct (index t opcode) as [w|]; [|discriminate].
  apply Z.eqb_eq in Hv. subst w. reflexivity.
Qed.

Lemma all_held (t l : list Z) :
  forallb (fun v => match opcode_holding t v with
                    | Some _ => true
                    | None => false
                    end) l = true ->
  Forall (fun v => exists opcode, 0 <= opcode < 256 /\ index t opcode = Some v) l.
Proof.
  intros H. rewrite forallb_forall in H.
  apply Forall_forall. intros v Hin. specialize (H v Hin).
  destruct (opcode_holding t v) as [o|] eqn:E; [|discriminate].
  exists o. apply opcode_holding_sound, E.
Qed.

(** No enumerator is idle: every addressing mode, and [ADDR_MODE_NONE],
    is the entry of some opcode, and every instruction has an opcode. *)
Theorem every_enumerator_has_opcode :
  Forall (fun m => exists opcode,
            0 <= opcode < 256 /\ index instruction_modes_6502 opcode = Some m)
    (ADDR_MODE_NONE :: addressing_modes)
  /\ Forall (fun t => exists opcode,
               0 <= opcode < 256 /\ index instruction_types_6502 opcode = Some t)
       instr_types.
Proof.
  split; apply all_held; vm_compute; reflexivity.
Qed.

(** Decoding loses nothing: two opcodes with the same addressing mode and
    the same instruction type, the mode not being [ADDR_MODE_NONE], are
    the same opcode. *)
Theorem decode_injective (o1 o2 : Z) :
  0 <= o1 < 256 ->
  0 <= o2 < 256 ->
  assigned o1 = true ->
  entry o1 = entry o2 ->
  o1 = o2.
Proof.
  intros H1 H2 Hassigned Hentry.
  pose (same := fun p q : option (Z * Z) =>
    match p, q with
    | Some (m, t), Some (m', t') => (m =? m') && (t =? t')
    | _, _ => false
    end).
  assert (Hall : forallb (fun p =>
            forallb (fun q =>
              negb (assigned p) || negb (same (entry p) (entry q)) || (p =? q))
              opcodes) opcodes = true) by (vm_compute; reflexivity).
  rewrite forallb_forall in Hall.
  specialize (Hall o1 (opcodes_complete o1 H1)).
  rewrite forallb_forall in Hall.
  specialize (Hall o2 (opcodes_complete o2 H2)).
  rewrite Hassigned, <- Hentry in Hall. cbn [negb orb] in Hall.
  assert (Hsame : same (entry o1) (entry o1) = true).
  { unfold same. destruct (entry o1) as [[m t]|] eqn:E.
    - rewrite !Z.eqb_refl. reflexivity.
    - pose proof (for_all_opcodes
        (fun o => match entry o with Some _ => true | None => false end)
        eq_refl o1 H1) as Hsome.
      cbv beta in Hsome. rewrite E in Hsome. discriminate. }
  rewrite Hsame in Hall. cbn [negb orb] in Hall.
  apply Z.eqb_eq, Hall.
Qed.

Lemma decode_injective_6c : 0x6c = 0x6c.
Proof.
  apply (decode_injective 0x6c 0x6c); [lia | lia | reflexivity | reflexivity].
Defined.

(** * The reset vector *)

(** The reset vector round trip: with the low byte of a 16-bit address at
    [0xfffc] and its high byte at [0xfffd], a reset sets the program
    counter to that address. *)
Theorem cpu6502_reset_loads_vector (s : cpu6502) (target : Z) :
  0 <= target < 2 ^ 16 ->
  ram s RESET_VECTOR = target mod 2 ^ 8 ->
  ram s (RESET_VECTOR + 1) = target / 2 ^ 8 ->
  pc (cpu6502_reset s) = target.
Proof.
  intros Ht Hlo Hhi. rewrite cpu6502_reset_unfold. cbn [pc].
  rewrite Hlo, Hhi.
  pose proof (Z.mod_pos_bound target (2 ^ 8) ltac:(lia)) as Hb.
  assert (Hq : 0 <= target / 2 ^ 8 < 2 ^ 8).
  { split; [apply Z.div_pos; lia|]. apply Z.div_lt_upper_bound; lia. }
  rewrite little_endian_word by assumption.
  pose proof (Z.div_mod target (2 ^ 8) ltac:(lia)). lia.
Qed.

Lemma cpu6502_reset_loads_vector_8000 :
  pc (cpu6502_reset cpu6502_vector_8000) = 0x8000.
Proof.
  apply (cpu6502_reset_loads_vector cpu6502_vector_8000 0x8000);
    [lia | reflexivity | reflexivity].
Defined.
